(** * nucypher/cli/actions/network.py

    A shallow embedding of the seed-node discovery helpers
    ([load_static_nodes], [aggregate_seednode_uris], [load_seednodes]) and of
    the external-address helpers ([get_external_ip_from_centralized_source],
    [determine_external_ip_address]), followed by the properties established
    about them.

    Python values that come out of [json.load] are embedded as [pyval];
    exceptions as [exn]; list objects live in a heap of locations so that
    aliasing between a caller's list and the list a function returns is
    visible; the emitter, the HTTP client, the click prompts and the Ursula
    constructor act on an explicit [state], threaded by the monad [M]. *)

From Stdlib Require Import ZArith Ascii PrimFloat.
From stdpp Require Import gmap strings list fin_maps.

Set Warnings "-register-all".
Set Default Proof Using "Type".

Local Open Scope string_scope.
Local Open Scope Z_scope.
Local Open Scope list_scope.

(** ** Python values *)

(** What [json.load] can return: [None], [bool], [int], [float], [str],
    [list], and [dict] with string keys.  A dict keeps its keys in insertion
    order, which is what iterating it yields. *)
Inductive pyval : Type :=
| PNone
| PBool (b : bool)
| PInt (z : Z)
| PFloat (f : float)
| PStr (s : string)
| PList (l : list pyval)
| PDict (d : list (string * pyval)).

Abbreviation dict := (list (string * pyval)).

(** [type(v).__name__] *)
Definition type_name (v : pyval) : string :=
  match v with
  | PNone => "NoneType"
  | PBool _ => "bool"
  | PInt _ => "int"
  | PFloat _ => "float"
  | PStr _ => "str"
  | PList _ => "list"
  | PDict _ => "dict"
  end.

(** [bool(l)] for a sequence: it is true unless the sequence is empty. *)
Definition nonempty {A} (l : list A) : bool :=
  match l with
  | [] => false
  | _ :: _ => true
  end.

(** [bool(v)], the test performed by [if v:] and by [v or w]. *)
Definition truthy (v : pyval) : bool :=
  match v with
  | PNone => false
  | PBool b => b
  | PInt z => negb (z =? 0)
  | PFloat f => negb (PrimFloat.eqb f 0%float)
  | PStr s => negb (bool_decide (s = ""))
  | PList l => nonempty l
  | PDict d => nonempty d
  end.

(** The one-character strings that iterating a [str] yields. *)
Fixpoint characters (s : string) : list pyval :=
  match s with
  | EmptyString => []
  | String c s' => PStr (String c EmptyString) :: characters s'
  end.

(** [iter(v)] run to exhaustion: the elements of a list, the characters of
    a string, the keys of a dict; the other types are not iterable. *)
Definition py_iter (v : pyval) : option (list pyval) :=
  match v with
  | PList l => Some l
  | PStr s => Some (characters s)
  | PDict d => Some (PStr <$> d.*1)
  | _ => None
  end.

(** [d.get(k)], with Python's [None] for a missing key. *)
Fixpoint dict_get (d : dict) (k : string) : pyval :=
  match d with
  | [] => PNone
  | (k', v) :: d' => if decide (k' = k) then v else dict_get d' k
  end.

(** [d[k] = v]: an existing key keeps its position, a new one goes last. *)
Fixpoint dict_set (d : dict) (k : string) (v : pyval) : dict :=
  match d with
  | [] => [(k, v)]
  | (k', v') :: d' =>
      if decide (k' = k) then (k, v) :: d' else (k', v') :: dict_set d' k v
  end.

(** ** Exceptions and outcomes *)

Inductive exn : Type :=
| RuntimeError (msg : string)
| AttributeError (ty attr : string)     (* '<ty>' object has no attribute '<attr>' *)
| TypeError (ty : string)               (* '<ty>' object is not iterable *)
| UnknownIPAddress (status_code : Z)    (* class UnknownIPAddress(RuntimeError) *)
| NodeSeemsToBeDown
| NotStaking                            (* Teacher.NotStaking *)
| OtherError (name : string).           (* any class the module never names *)

Inductive outcome (A : Type) : Type :=
| Ok (a : A)
| Raise (e : exn).
Arguments Ok {A} a.
Arguments Raise {A} e.

(** ** The file system, as [open] and [json.load] see it *)

Inductive file : Type :=
| Unreadable (e : exn)     (* [open] or [read] raises something else than FileNotFoundError *)
| NotJson                  (* [json.load] raises JSONDecodeError *)
| Json (v : pyval).        (* [json.load] returns [v] *)

(** [os.path.join(a, b)] on POSIX for a relative [b]. *)
Fixpoint ends_with_sep (s : string) : bool :=
  match s with
  | EmptyString => false
  | String c EmptyString => bool_decide (c = "/"%char)
  | String _ s' => ends_with_sep s'
  end.

Definition os_path_join (a b : string) : string :=
  if bool_decide (a = "") || ends_with_sep a then a +:+ b else a +:+ "/" +:+ b.

(** Membership in a Python [set] of strings.  The set is carried as the list
    of its elements in the order in which iterating the set object yields
    them; Python fixes that order neither across processes nor across two
    equal sets with different histories. *)
Definition set_contains (domains : list string) (domain : string) : bool :=
  bool_decide (domain ∈ domains).

(** ** What the module imports

    Constants of other nucypher modules and the collaborators the functions
    call.  A collaborator is a function of the [World], the part of the
    state that only collaborators read and change (the network, the
    terminal, the chain). *)

Record response : Type := Response { status_code : Z; text : string }.

(** The texts shown to the user, each identified by its template and the
    values formatted into it; the templates are those of
    [nucypher.cli.literature] and the two literals of [load_seednodes]. *)
Inductive literature : Type :=
| CONNECTING_TO_TEACHERS                          (* "Connecting to preferred teacher nodes..." *)
| NO_DOMAIN_PEERS (domains : list string)         (* .format(domains=','.join(network_domains)) *)
| FAILED_TO_CONNECT (uri : pyval)                 (* f"Failed to connect to teacher: {uri}" *)
| SEEDNODE_NOT_STAKING_WARNING (uri : pyval)      (* .format(uri=uri) *)
| FORCE_DETECT_URSULA_IP_WARNING (rest_host : string)
| CONFIRM_URSULA_IPV4_ADDRESS (rest_host : string)
| COLLECT_URSULA_IPV4_ADDRESS.

Class Environment : Type := {
  (** [nucypher.config.constants.DEFAULT_CONFIG_ROOT] *)
  DEFAULT_CONFIG_ROOT : string;
  (** [nucypher.network.teachers.TEACHER_NODES]: per domain, a tuple of URIs *)
  TEACHER_NODES : gmap string (list string);
  (** [nucypher.cli.types.IPV4_ADDRESS], as the test its [convert] applies *)
  IPV4_ADDRESS : string → bool;
  World : Type;
  Ursula : Type;
  RestMiddleware : Type;
  BaseContractRegistry : Type;
  (** [Ursula.from_teacher_uri(teacher_uri, min_stake, federated_only,
      network_middleware, registry)] *)
  from_teacher_uri :
    pyval → Z → bool → option RestMiddleware → option BaseContractRegistry →
    World → outcome Ursula * World;
  (** [requests.get(url)] *)
  requests_get : string → World → outcome response * World;
  (** [click.confirm(text)] *)
  click_confirm : literature → World → outcome bool * World;
  (** [click.prompt(text, type=...)] *)
  click_prompt : literature → (string → bool) → World → outcome string * World;
}.

(** ** State *)

Definition loc := positive.

(** What the outside can observe of a run, in the order it happened. *)
Inductive event : Type :=
| Message (m : literature) (color : option string)     (* emitter.message *)
| Get (url : string)                                   (* requests.get *)
| Confirm (m : literature)                             (* click.confirm *)
| Prompt (m : literature).                             (* click.prompt *)

Section Model.
Context `{env : Environment}.

Record state : Type := State {
  heap : gmap loc (list pyval);      (* the list objects *)
  disk : gmap string file;
  trace : list event;
  world : World;
}.

Definition with_heap (h : gmap loc (list pyval)) (σ : state) : state :=
  State h (disk σ) (trace σ) (world σ).

Definition with_trace (t : list event) (σ : state) : state :=
  State (heap σ) (disk σ) t (world σ).

Definition with_world (w : World) (σ : state) : state :=
  State (heap σ) (disk σ) (trace σ) w.

(** A computation returns a value or raises, and leaves a state either way:
    what was done before an exception is not undone. *)
Definition M (A : Type) : Type := state → outcome A * state.

Definition ret {A} (a : A) : M A := λ σ, (Ok a, σ).

Definition raise {A} (e : exn) : M A := λ σ, (Raise e, σ).

Definition bind {A B} (c : M A) (k : A → M B) : M B :=
  λ σ, match c σ with
       | (Ok a, σ') => k a σ'
       | (Raise e, σ') => (Raise e, σ')
       end.

(** A call of a collaborator, recorded in the trace. *)
Definition call {A} (ev : event) (f : World → outcome A * World) : M A :=
  λ σ, let '(o, w) := f (world σ) in
       (o, with_world w (with_trace (trace σ ++ [ev]) σ)).

(** stdpp's notations [x ← c; k] and [c;; k] for [bind]. *)
#[global] Instance M_ret : MRet M := @ret.

#[global] Instance M_bind : MBind M := λ A B k c, bind c k.

(** [for x in xs: body] *)
Fixpoint for_each {X} (xs : list X) (body : X → M unit) : M unit :=
  match xs with
  | [] => ret ()
  | x :: xs' => body x;; for_each xs' body
  end.

(** [list()] *)
Definition new_list : M loc :=
  λ σ, let l := fresh (dom (heap σ)) in (Ok l, with_heap (<[l := []]> (heap σ)) σ).

(** The elements of the list object at [l]; a location that holds no
    object reads as an empty list (the functions only ever hold references
    to objects that exist). *)
Definition contents (σ : state) (l : loc) : list pyval := heap σ !!! l.

Definition read_list (l : loc) : M (list pyval) := λ σ, (Ok (contents σ l), σ).

(** [uris.extend(v)]: the elements of [v] are appended to the object in
    place. *)
Definition list_extend (uris : loc) (v : pyval) : M unit :=
  λ σ, match py_iter v with
       | Some xs => (Ok (), with_heap (<[uris := contents σ uris ++ xs]> (heap σ)) σ)
       | None => (Raise (TypeError (type_name v)), σ)
       end.

(** [emitter.message(m, color=color)] *)
Definition emit (m : literature) (color : option string) : M unit :=
  λ σ, (Ok (), with_trace (trace σ ++ [Message m color]) σ).

(** ** Seed nodes *)

Definition items (static_nodes : pyval) : outcome dict :=
  match static_nodes with
  | PDict d => Ok d
  | v => Raise (AttributeError (type_name v) "items")
  end.

(** [{domain: uris for domain, uris in its if domain in domains}] *)
Definition filter_domains (domains : list string) (its : dict) : dict :=
  fold_left
    (λ acc '(domain, uris), if set_contains domains domain then dict_set acc domain uris else acc)
    its [].

(** The path that [load_static_nodes] opens: the default one when
    [filepath] is [None] or empty. *)
Definition resolved_path (filepath : option string) : string :=
  match filepath with
  | Some p =>
      if bool_decide (p = "") then os_path_join DEFAULT_CONFIG_ROOT "static-nodes.json" else p
  | None => os_path_join DEFAULT_CONFIG_ROOT "static-nodes.json"
  end.

(** [load_static_nodes] as a function of the disk it reads. *)
Definition read_static_nodes (disk : gmap string file) (domains : list string)
    (filepath : option string) : outcome dict :=
  let filepath := resolved_path filepath in
  match disk !! filepath with
  | None => Ok []                            (* except FileNotFoundError *)
  | Some (Unreadable e) => Raise e
  | Some NotJson =>                          (* except JSONDecodeError *)
      Raise (RuntimeError ("Static nodes file '" +:+ filepath +:+ "' contains invalid JSON."))
  | Some (Json static_nodes) =>
      match items static_nodes with
      | Raise e => Raise e
      | Ok its => Ok (filter_domains domains its)
      end
  end.

Definition load_static_nodes (domains : list string) (filepath : option string) : M dict :=
  λ σ, (read_static_nodes (disk σ) domains filepath, σ).

(** [highest_priority or list()]: the caller's list object itself when it
    is not empty, a new list otherwise. *)
Definition or_list (highest_priority : option loc) : M loc :=
  match highest_priority with
  | None => new_list
  | Some l => λ σ, if nonempty (contents σ l) then (Ok l, σ) else new_list σ
  end.

(** The body of the loop of [aggregate_seednode_uris]; [uris] is the list
    object being filled. *)
Definition aggregate_body (static_nodes : dict) (uris : loc) (domain : string) : M unit :=
  let domain_static_nodes := dict_get static_nodes domain in
  (if truthy domain_static_nodes then list_extend uris domain_static_nodes else mret ());;
  match TEACHER_NODES !! domain with
  | Some hardcoded_uris =>
      if nonempty hardcoded_uris then list_extend uris (PList (PStr <$> hardcoded_uris))
      else mret ()
  | None => mret ()
  end.

Definition aggregate_seednode_uris (domains : list string) (highest_priority : option loc)
    : M loc :=
  static_nodes ← load_static_nodes domains None;
  uris ← or_list highest_priority;
  for_each domains (aggregate_body static_nodes uris);;
  mret uris.

(** The loop of [load_seednodes] over the aggregated URIs; [teacher_nodes]
    is the list built so far. *)
Fixpoint construct_ursulas (min_stake : Z) (federated_only : bool)
    (network_middleware : option RestMiddleware) (registry : option BaseContractRegistry)
    (teacher_uris : list pyval) (teacher_nodes : list Ursula) : M (list Ursula) :=
  match teacher_uris with
  | [] => mret teacher_nodes
  | uri :: rest =>
      λ σ,
        match from_teacher_uri uri min_stake federated_only network_middleware registry (world σ) with
        | (Ok teacher_node, w) =>
            construct_ursulas min_stake federated_only network_middleware registry
              rest (teacher_nodes ++ [teacher_node]) (with_world w σ)
        | (Raise NodeSeemsToBeDown, w) =>
            (emit (FAILED_TO_CONNECT uri) None;;
             construct_ursulas min_stake federated_only network_middleware registry
               rest teacher_nodes) (with_world w σ)
        | (Raise NotStaking, w) =>
            (emit (SEEDNODE_NOT_STAKING_WARNING uri) None;;
             construct_ursulas min_stake federated_only network_middleware registry
               rest teacher_nodes) (with_world w σ)
        | (Raise e, w) => (Raise e, with_world w σ)
        end
  end.

Definition load_seednodes (min_stake : Z) (federated_only : bool)
    (network_domains : list string) (network_middleware : option RestMiddleware)
    (teacher_uris : option loc) (registry : option BaseContractRegistry)
    : M (list Ursula) :=
  emit CONNECTING_TO_TEACHERS (Some "yellow");;
  teacher_uris ← aggregate_seednode_uris network_domains teacher_uris;
  teacher_uris ← read_list teacher_uris;
  if nonempty teacher_uris then
    teacher_nodes ← construct_ursulas min_stake federated_only network_middleware registry
                      teacher_uris [];
    (if nonempty teacher_nodes then mret () else emit (NO_DOMAIN_PEERS network_domains) None);;
    mret teacher_nodes
  else
    emit (NO_DOMAIN_PEERS network_domains) None;;
    mret [].

(** ** External address *)

Definition get_external_ip_from_centralized_source : M string :=
  ip_request ← call (Get "https://ifconfig.me/") (requests_get "https://ifconfig.me/");
  if status_code ip_request =? 200 then mret (text ip_request)
  else raise (UnknownIPAddress (status_code ip_request)).

(** The result is [None] where the Python function falls off its end. *)
Definition determine_external_ip_address (force : bool) : M (option string) :=
  λ σ,
    match get_external_ip_from_centralized_source σ with
    | (Raise (UnknownIPAddress status), σ') =>          (* except UnknownIPAddress *)
        if force then (Raise (UnknownIPAddress status), σ') else (Ok None, σ')
    | (Raise e, σ') => (Raise e, σ')
    | (Ok rest_host, σ') =>                              (* else *)
        (if negb force then
           confirmed ← call (Confirm (CONFIRM_URSULA_IPV4_ADDRESS rest_host))
                            (click_confirm (CONFIRM_URSULA_IPV4_ADDRESS rest_host));
           if negb confirmed then
             rest_host ← call (Prompt COLLECT_URSULA_IPV4_ADDRESS)
                              (click_prompt COLLECT_URSULA_IPV4_ADDRESS IPV4_ADDRESS);
             mret (Some rest_host)
           else mret (Some rest_host)
         else
           emit (FORCE_DETECT_URSULA_IP_WARNING rest_host) (Some "yellow");;
           mret (Some rest_host)) σ'
    end.

(** ** What the functions are expected to compute *)

(** The state after [xs] has been appended to the list at [uris]. *)
Definition extended (σ : state) (uris : loc) (xs : list pyval) : state :=
  with_heap (<[uris := contents σ uris ++ xs]> (heap σ)) σ.

(** The elements of the list a caller passes as [highest_priority]. *)
Definition arg_contents (σ : state) (highest_priority : option loc) : list pyval :=
  match highest_priority with
  | None => []
  | Some l => contents σ l
  end.

(** What a call that returns a list object hands to its caller: the
    elements of that object on return, or the exception. *)
Definition result_contents (r : outcome loc * state) : outcome (list pyval) :=
  match r.1 with
  | Ok l => Ok (contents r.2 l)
  | Raise e => Raise e
  end.

(** The static-file URIs of one domain. *)
Definition static_block (static_nodes : dict) (domain : string) : outcome (list pyval) :=
  let v := dict_get static_nodes domain in
  if truthy v then
    match py_iter v with
    | Some xs => Ok xs
    | None => Raise (TypeError (type_name v))
    end
  else Ok [].

(** The hardcoded URIs of one domain. *)
Definition hardcoded_block (domain : string) : list pyval :=
  PStr <$> default [] (TEACHER_NODES !! domain).

(** Per domain, in the order given: its static-file URIs, then its
    hardcoded URIs; with the exception that stops the enumeration, if any,
    and what had been collected until then. *)
Fixpoint contributions (static_nodes : dict) (domains : list string)
    : list pyval * option exn :=
  match domains with
  | [] => ([], None)
  | domain :: rest =>
      match static_block static_nodes domain with
      | Raise e => ([], Some e)
      | Ok xs =>
          let '(ys, err) := contributions static_nodes rest in
          (xs ++ hardcoded_block domain ++ ys, err)
      end
  end.

(** The aggregated URI list: the explicit URIs first, then the
    contributions of the domains. *)
Definition aggregated_uris (disk : gmap string file) (domains : list string)
    (highest_priority : list pyval) : outcome (list pyval) :=
  match read_static_nodes disk domains None with
  | Raise e => Raise e
  | Ok static_nodes =>
      match contributions static_nodes domains with
      | (bl, None) => Ok (highest_priority ++ bl)
      | (_, Some e) => Raise e
      end
  end.

(** The construction attempts over a URI list, each with its outcome, and
    the world they leave. *)
Fixpoint attempts (min_stake : Z) (federated_only : bool)
    (network_middleware : option RestMiddleware) (registry : option BaseContractRegistry)
    (uris : list pyval) (w : World) : list (pyval * outcome Ursula) * World :=
  match uris with
  | [] => ([], w)
  | uri :: rest =>
      let '(o, w') := from_teacher_uri uri min_stake federated_only network_middleware registry w in
      let '(tr, w'') := attempts min_stake federated_only network_middleware registry rest w' in
      ((uri, o) :: tr, w'')
  end.

(** The failures the loop of [load_seednodes] recovers from. *)
Definition recovered (e : exn) : bool :=
  match e with
  | NodeSeemsToBeDown | NotStaking => true
  | _ => false
  end.

Definition survivable {A} (a : pyval * outcome A) : bool :=
  match a.2 with
  | Ok _ => true
  | Raise e => recovered e
  end.

(** The teachers constructed by a sequence of attempts, in that order. *)
Definition successes {A} (tr : list (pyval * outcome A)) : list A :=
  omap (λ a, match a.2 with Ok t => Some t | Raise _ => None end) tr.

(** The notices for the recovered failures of a sequence of attempts. *)
Definition notices {A} (tr : list (pyval * outcome A)) : list event :=
  omap (λ a, match a.2 with
             | Raise NodeSeemsToBeDown => Some (Message (FAILED_TO_CONNECT a.1) None)
             | Raise NotStaking => Some (Message (SEEDNODE_NOT_STAKING_WARNING a.1) None)
             | _ => None
             end) tr.

(** Modelled from the spec: the typed input prompt is constrained by its
    type, so [click.prompt(text, type=t)] only ever returns a text that [t]
    accepts ([click] itself is not part of the sources). *)
Definition prompt_honours_type : Prop :=
  ∀ m (type : string → bool) w s w', click_prompt m type w = (Ok s, w') → type s = true.

(** The address-echo service queried by
    [get_external_ip_from_centralized_source]. *)
Definition echo_url : string := "https://ifconfig.me/".

End Model.

Arguments state : clear implicits.
Arguments M : clear implicits.

(** ** A scripted environment

    A concrete environment to run the functions in: the world is a script
    of what the network and the user will answer. *)

Record script : Type := Script {
  http_reply : outcome response;      (* what the GET comes back with *)
  confirm_reply : outcome bool;       (* the user's answer to the confirmation *)
  typed_lines : list string;          (* what the user types at the prompt, line by line *)
  down : list string;                 (* URIs of nodes that do not answer *)
  not_staking : list string;          (* URIs of nodes that answer and do not stake *)
}.

(** Modelled from the spec: the typed input is "constrained to
    well-formed IPv4 syntax" by [nucypher.cli.types.IPV4_ADDRESS], which is
    not among the sources.  Here: four decimal fields of one to three
    digits, each at most 255, separated by dots. *)
Definition digit_value (c : ascii) : option Z :=
  let n := Z.of_nat (nat_of_ascii c) in
  if (48 <=? n) && (n <=? 57) then Some (n - 48) else None.

Fixpoint ipv4_fields (s : string) (field : option Z) (digits : nat) (dots : nat) : bool :=
  match s with
  | EmptyString => bool_decide (dots = 3%nat) && bool_decide (is_Some field)
  | String c s' =>
      if bool_decide (c = "."%char) then
        bool_decide (is_Some field) && ipv4_fields s' None 0 (S dots)
      else
        match digit_value c with
        | None => false
        | Some d =>
            let v := 10 * default 0 field + d in
            (digits <? 3)%nat && (v <=? 255) && ipv4_fields s' (Some v) (S digits) dots
        end
  end.

Definition is_ipv4 (s : string) : bool := ipv4_fields s None 0 0.

(** [click.prompt] with a type asks again until the type accepts the line;
    the end of the input aborts. *)
Fixpoint scripted_prompt (type : string → bool) (lines : list string)
    : outcome string * list string :=
  match lines with
  | [] => (Raise (OtherError "Abort"), [])
  | line :: lines' => if type line then (Ok line, lines') else scripted_prompt type lines'
  end.

Definition scripted_teacher (uri : pyval) (w : script) : outcome string * script :=
  match uri with
  | PStr s =>
      if bool_decide (s ∈ down w) then (Raise NodeSeemsToBeDown, w)
      else if bool_decide (s ∈ not_staking w) then (Raise NotStaking, w)
      else (Ok s, w)
  | v => (Raise (TypeError (type_name v)), w)
  end.

Definition scripted (config_root : string) (teachers : gmap string (list string))
    : Environment :=
  {| DEFAULT_CONFIG_ROOT := config_root;
     TEACHER_NODES := teachers;
     IPV4_ADDRESS := is_ipv4;
     World := script;
     Ursula := string;
     RestMiddleware := unit;
     BaseContractRegistry := unit;
     from_teacher_uri := λ uri _ _ _ _ w, scripted_teacher uri w;
     requests_get := λ _ w, (http_reply w, w);
     click_confirm := λ _ w, (confirm_reply w, w);
     click_prompt := λ _ type w,
       let '(o, rest) := scripted_prompt type (typed_lines w) in
       (o, Script (http_reply w) (confirm_reply w) rest (down w) (not_staking w)) |}.

(** The scenario used throughout: one domain, one static node, one
    hardcoded teacher, one teacher given on the command line. *)
Definition alpha_env : Environment :=
  scripted "/etc/nucypher" {[ "alpha" := ["node://B"] ]}.

Definition alpha_disk : gmap string file :=
  {[ "/etc/nucypher/static-nodes.json" := Json (PDict [("alpha", PList [PStr "node://A"])]) ]}.

Definition quiet : script :=
  Script (Ok (Response 200 "203.0.113.7")) (Ok true) [] [] [].

(** The caller's list [["node://C"]] lives at location 1. *)
Definition alpha_state (w : script) : state alpha_env :=
  State (env := alpha_env) {[ 1%positive := [PStr "node://C"] ]} alpha_disk [] w.

(** The scenario without a static-node file and without list objects. *)
Definition bare_state : state alpha_env :=
  State (env := alpha_env) ∅ ∅ [] quiet.

(** The scenario with an empty list as the caller's list. *)
Definition empty_list_state : state alpha_env :=
  State (env := alpha_env) {[ 1%positive := [] ]} alpha_disk [] quiet.

(** The same with an array where the mapping should be. *)
Definition array_disk : gmap string file :=
  {[ "/etc/nucypher/static-nodes.json" := Json (PList [PStr "node://A"]) ]}.

Definition array_state : state alpha_env :=
  State (env := alpha_env) ∅ array_disk [] quiet.

(** Two domains with one hardcoded teacher each, and no static-node file. *)
Definition alpha_beta_env : Environment :=
  scripted "/etc/nucypher" {[ "alpha" := ["node://A"]; "beta" := ["node://B"] ]}.

Definition alpha_beta_state : state alpha_beta_env :=
  State (env := alpha_beta_env)
    {[ 1%positive := [PStr "node://C"]; 2%positive := [PStr "node://C"] ]} ∅ [] quiet.

(** The node behind ["node://A"] does not answer. *)
Definition a_is_down : script :=
  Script (Ok (Response 200 "203.0.113.7")) (Ok true) [] ["node://A"] [].

(** The address-echo service is out of order. *)
Definition echo_fails : script :=
  Script (Ok (Response 500 "Internal Server Error")) (Ok true) [] [] [].

(** The address-echo service answers 200 with something that is no
    address; the user accepts it, or rejects it and types a host name,
    then an address. *)
Definition echo_page (accept : bool) : script :=
  Script (Ok (Response 200 "<html>hello</html>")) (Ok accept) ["localhost"; "10.0.0.7"] [] [].

(** ** Readings of a run used by the further properties *)

Section Readings.
Context `{env : Environment}.

(** What one domain adds to the list when its static-file entry can be
    iterated or is skipped: that entry's elements, then the hardcoded
    URIs. *)
Definition domain_block (static_nodes : dict) (domain : string) : list pyval :=
  match static_block static_nodes domain with
  | Ok xs => xs ++ hardcoded_block domain
  | Raise _ => []
  end.

(** The events a run has added to the trace. *)
Definition new_events (σ σ' : state env) : list event :=
  drop (length (trace σ)) (trace σ').

End Readings.

(** The notices [load_seednodes] emits for a URI it gives up on. *)
Definition failure_notice (ev : event) : bool :=
  match ev with
  | Message (FAILED_TO_CONNECT _) _ | Message (SEEDNODE_NOT_STAKING_WARNING _) _ => true
  | _ => false
  end.

Definition is_get (ev : event) : bool :=
  match ev with
  | Get _ => true
  | _ => false
  end.

(** The events in which the user is asked something. *)
Definition is_interaction (ev : event) : bool :=
  match ev with
  | Confirm _ | Prompt _ => true
  | _ => false
  end.

Definition is_message (ev : event) : bool :=
  match ev with
  | Message _ _ => true
  | _ => false
  end.

(** Two domains; the static-node file lists a node for the first and a
    number where the list of the second should be. *)
Definition broken_beta_disk : gmap string file :=
  {[ "/etc/nucypher/static-nodes.json" :=
       Json (PDict [("alpha", PList [PStr "node://S"]); ("beta", PInt 7)]) ]}.

Definition broken_beta_state : state alpha_beta_env :=
  State (env := alpha_beta_env) {[ 1%positive := [PStr "node://C"] ]} broken_beta_disk [] quiet.

(** The static-node file gives a bare string for the domain, and lists a
    domain nobody asks for. *)
Definition bare_string_disk : gmap string file :=
  {[ "/etc/nucypher/static-nodes.json" :=
       Json (PDict [("alpha", PStr "n:A"); ("gamma", PList [PStr "node://G"])]) ]}.

Definition bare_string_state : state alpha_env :=
  State (env := alpha_env) ∅ bare_string_disk [] quiet.

(** The static-node file is not JSON. *)
Definition garbage_state : state alpha_env :=
  State (env := alpha_env) {[ 1%positive := [PStr "node://C"] ]}
    {[ "/etc/nucypher/static-nodes.json" := NotJson ]} [] quiet.

(** The user's terminal is closed: the confirmation aborts. *)
Definition no_terminal : script :=
  Script (Ok (Response 200 "203.0.113.7")) (Raise (OtherError "Abort")) [] [] [].

(** The network is unreachable. *)
Definition offline : script :=
  Script (Raise (OtherError "ConnectionError")) (Ok true) [] [] [].

(** * Properties *)

Ltac run := unfold mbind, M_bind, mret, M_ret, bind, ret, raise.

Section Properties.
Context `{env : Environment}.

Implicit Types (σ : state env) (l uris : loc) (domains : list string).
Implicit Types (static_nodes : dict) (highest_priority : option loc).

(** ** The heap *)

Lemma extended_nil σ uris : is_Some (heap σ !! uris) → extended σ uris [] = σ.
Proof.
  intros [xs Hxs]. destruct σ as [h d t w]. unfold extended, contents, with_heap in *.
  simpl in *. f_equal. rewrite app_nil_r. apply insert_id.
  by rewrite (lookup_total_correct _ _ _ Hxs).
Qed.

Lemma extended_app σ uris xs ys :
  extended (extended σ uris xs) uris ys = extended σ uris (xs ++ ys).
Proof.
  destruct σ as [h d t w]. unfold extended, contents, with_heap. simpl. f_equal.
  by rewrite lookup_total_insert_eq, insert_insert_eq, app_assoc.
Qed.

Lemma extended_is_Some σ uris xs l :
  is_Some (heap σ !! l) → is_Some (heap (extended σ uris xs) !! l).
Proof.
  intros H. unfold extended. simpl. destruct (decide (uris = l)) as [->|Hne].
  - rewrite lookup_insert_eq. eauto.
  - by rewrite lookup_insert_ne.
Qed.

Lemma contents_extended σ uris xs : contents (extended σ uris xs) uris = contents σ uris ++ xs.
Proof. unfold extended, contents. simpl. by rewrite lookup_total_insert_eq. Qed.

Lemma contents_extended_ne σ uris xs l :
  uris ≠ l → contents (extended σ uris xs) l = contents σ l.
Proof. intros H. unfold extended, contents. simpl. by rewrite lookup_total_insert_ne. Qed.

Lemma list_extend_iterable uris v xs σ :
  py_iter v = Some xs → list_extend uris v σ = (Ok (), extended σ uris xs).
Proof. intros H. unfold list_extend. by rewrite H. Qed.

(** [highest_priority or list()] returns a list object that exists, holds
    the elements of the argument, and is the argument itself exactly when
    that one is not empty. *)
Lemma or_list_spec highest_priority σ :
  ∃ uris σ',
    or_list highest_priority σ = (Ok uris, σ') ∧
    is_Some (heap σ' !! uris) ∧
    contents σ' uris = arg_contents σ highest_priority ∧
    disk σ' = disk σ ∧ trace σ' = trace σ ∧ world σ' = world σ ∧
    (∀ l, is_Some (heap σ !! l) → heap σ' !! l = heap σ !! l).
Proof.
  assert (Hnew : ∃ uris σ', new_list σ = (Ok uris, σ') ∧
            is_Some (heap σ' !! uris) ∧ contents σ' uris = [] ∧
            disk σ' = disk σ ∧ trace σ' = trace σ ∧ world σ' = world σ ∧
            (∀ l, is_Some (heap σ !! l) → heap σ' !! l = heap σ !! l)).
  { eexists _, _. split; [reflexivity|]. unfold contents. simpl.
    rewrite lookup_insert_eq, lookup_total_insert_eq. repeat split; eauto.
    intros l [xs Hl]. apply lookup_insert_ne. intros <-.
    pose proof (is_fresh (dom (heap σ))) as Hf.
    apply Hf, elem_of_dom. eauto. }
  destruct highest_priority as [l|]; simpl; [|exact Hnew].
  destruct (contents σ l) as [|x xs] eqn:Hl; simpl; [exact Hnew|].
  exists l, σ. repeat split; auto. unfold contents in Hl.
  rewrite lookup_total_alt in Hl. destruct (heap σ !! l); [eauto|discriminate].
Qed.

(** ** The loop of [aggregate_seednode_uris] *)

Lemma aggregate_body_spec static_nodes uris domain σ :
  is_Some (heap σ !! uris) →
  aggregate_body static_nodes uris domain σ =
    match static_block static_nodes domain with
    | Ok xs => (Ok (), extended σ uris (xs ++ hardcoded_block domain))
    | Raise e => (Raise e, σ)
    end.
Proof.
  intros Hl. unfold aggregate_body, static_block, hardcoded_block. run.
  set (v := dict_get static_nodes domain).
  assert (Hhard : ∀ σ1 xs, σ1 = extended σ uris xs →
    match TEACHER_NODES !! domain with
    | Some hardcoded_uris =>
        if nonempty hardcoded_uris then list_extend uris (PList (PStr <$> hardcoded_uris))
        else (λ σ, (Ok (), σ))
    | None => λ σ, (Ok (), σ)
    end σ1 = (Ok (), extended σ uris (xs ++ (PStr <$> default [] (TEACHER_NODES !! domain))))).
  { intros σ1 xs ->. destruct (TEACHER_NODES !! domain) as [[|u us]|]; simpl.
    - by rewrite app_nil_r.
    - by rewrite (list_extend_iterable _ _ (PStr u :: (PStr <$> us))), extended_app.
    - by rewrite app_nil_r. }
  destruct (truthy v).
  - unfold list_extend at 1. destruct (py_iter v) as [xs|]; [|done]. by apply Hhard.
  - apply Hhard. by rewrite extended_nil.
Qed.

Lemma aggregate_loop static_nodes uris domains σ :
  is_Some (heap σ !! uris) →
  for_each domains (aggregate_body static_nodes uris) σ =
    let '(bl, err) := contributions static_nodes domains in
    (match err with None => Ok () | Some e => Raise e end, extended σ uris bl).
Proof.
  revert σ. induction domains as [|domain rest IH]; intros σ Hl; simpl.
  - by rewrite extended_nil.
  - run. fold (for_each rest (aggregate_body static_nodes uris)).
    rewrite aggregate_body_spec by done.
    destruct (static_block static_nodes domain) as [xs|e].
    + rewrite IH by by apply extended_is_Some.
      destruct (contributions static_nodes rest) as [ys err].
      by rewrite extended_app, <- app_assoc.
    + by rewrite extended_nil.
Qed.

(** ** [aggregate_seednode_uris] *)

Lemma aggregate_seednode_uris_unfold domains highest_priority σ :
  aggregate_seednode_uris domains highest_priority σ =
    match read_static_nodes (disk σ) domains None with
    | Raise e => (Raise e, σ)
    | Ok static_nodes =>
        match or_list highest_priority σ with
        | (Ok uris, σ1) =>
            let '(bl, err) := contributions static_nodes domains in
            (match err with None => Ok uris | Some e => Raise e end, extended σ1 uris bl)
        | (Raise e, σ1) => (Raise e, σ1)
        end
    end.
Proof.
  unfold aggregate_seednode_uris, load_static_nodes. run.
  destruct (read_static_nodes (disk σ) domains None) as [static_nodes|e]; [|done].
  destruct (or_list_spec highest_priority σ) as (uris & σ1 & -> & Hl & _).
  rewrite aggregate_loop by done.
  by destruct (contributions static_nodes domains) as [bl [e|]].
Qed.

(** What the caller receives depends on the disk, on the domains as
    enumerated and on the elements of [highest_priority], and on nothing
    else. *)
Lemma aggregate_seednode_uris_result domains highest_priority σ :
  result_contents (aggregate_seednode_uris domains highest_priority σ) =
    aggregated_uris (disk σ) domains (arg_contents σ highest_priority).
Proof.
  rewrite aggregate_seednode_uris_unfold. unfold aggregated_uris, result_contents.
  destruct (read_static_nodes (disk σ) domains None) as [static_nodes|e]; [|done].
  destruct (or_list_spec highest_priority σ) as (uris & σ1 & -> & _ & Hc & _).
  destruct (contributions static_nodes domains) as [bl [e|]]; simpl; [done|].
  by rewrite contents_extended, Hc.
Qed.

(** The call leaves the disk, the trace and the world as they were. *)
Lemma aggregate_seednode_uris_frame domains highest_priority σ :
  let σ' := (aggregate_seednode_uris domains highest_priority σ).2 in
  disk σ' = disk σ ∧ trace σ' = trace σ ∧ world σ' = world σ.
Proof.
  rewrite aggregate_seednode_uris_unfold.
  destruct (read_static_nodes (disk σ) domains None) as [static_nodes|e]; [|done].
  destruct (or_list_spec highest_priority σ) as (uris & σ1 & -> & _ & _ & Hd & Ht & Hw & _).
  by destruct (contributions static_nodes domains) as [bl [e|]].
Qed.

(** Where the static-node file can be read and every requested domain it
    lists has a value that is empty or can be iterated, the call returns. *)
Lemma aggregate_seednode_uris_returns domains highest_priority σ static_nodes :
  read_static_nodes (disk σ) domains None = Ok static_nodes →
  Forall (λ domain, truthy (dict_get static_nodes domain) = true →
                    is_Some (py_iter (dict_get static_nodes domain))) domains →
  ∃ uris, (aggregate_seednode_uris domains highest_priority σ).1 = Ok uris.
Proof.
  intros Hread Hall. rewrite aggregate_seednode_uris_unfold, Hread. clear Hread.
  destruct (or_list_spec highest_priority σ) as (uris & σ1 & -> & _).
  assert (Hnone : (contributions static_nodes domains).2 = None).
  { induction Hall as [|domain rest Hdomain _ IH]; simpl; [done|].
    unfold static_block. destruct (truthy (dict_get static_nodes domain)).
    - destruct Hdomain as [xs ->]; [done|].
      by destruct (contributions static_nodes rest).
    - by destruct (contributions static_nodes rest). }
  destruct (contributions static_nodes domains) as [bl err]. simpl in Hnone. subst err.
  by exists uris.
Qed.

(** A list passed as [highest_priority] that is not empty is the list the
    call fills and returns. *)
Lemma aggregate_seednode_uris_alias domains l σ uris σ' :
  contents σ l ≠ [] →
  aggregate_seednode_uris domains (Some l) σ = (Ok uris, σ') →
  uris = l ∧
  ∃ static_nodes,
    read_static_nodes (disk σ) domains None = Ok static_nodes ∧
    contents σ' l = contents σ l ++ (contributions static_nodes domains).1.
Proof.
  intros Hne. rewrite aggregate_seednode_uris_unfold.
  destruct (read_static_nodes (disk σ) domains None) as [static_nodes|e]; [|done].
  unfold or_list. destruct (contents σ l) as [|x xs] eqn:Hl; [done|]. simpl.
  destruct (contributions static_nodes domains) as [bl [e|]] eqn:Hbl; [done|].
  intros Hret. simplify_eq. split; [done|]. exists static_nodes.
  by rewrite contents_extended, Hl, Hbl.
Qed.

(** C2. Whatever the domains, the static-node file and the list passed as
    [highest_priority], a call of [aggregate_seednode_uris] that returns
    hands back a list that starts with the elements of [highest_priority],
    in their order, followed by the contributions of the domains (static-file
    URIs, then hardcoded URIs, domain by domain).  A call that does not
    return raises what reading the static-node file raised, or the
    TypeError of a static-file entry that cannot be iterated. *)
Theorem aggregate_seednode_uris_highest_priority_first domains highest_priority σ :
  match aggregate_seednode_uris domains highest_priority σ with
  | (Ok uris, σ') =>
      ∃ static_nodes,
        read_static_nodes (disk σ) domains None = Ok static_nodes ∧
        contents σ' uris =
          arg_contents σ highest_priority ++ (contributions static_nodes domains).1
  | (Raise e, _) =>
      read_static_nodes (disk σ) domains None = Raise e ∨
      ∃ static_nodes,
        read_static_nodes (disk σ) domains None = Ok static_nodes ∧
        (contributions static_nodes domains).2 = Some e
  end.
Proof.
  rewrite aggregate_seednode_uris_unfold.
  destruct (read_static_nodes (disk σ) domains None) as [static_nodes|e]; [|by left].
  destruct (or_list_spec highest_priority σ) as (uris & σ1 & -> & _ & Hc & _).
  destruct (contributions static_nodes domains) as [bl [e|]] eqn:Hbl.
  - right. exists static_nodes. by rewrite Hbl.
  - exists static_nodes. by rewrite contents_extended, Hc, Hbl.
Qed.

(** C4, as amended. Two calls of [aggregate_seednode_uris], one after the
    other, with the domains enumerated in the same order, with lists holding
    the same elements as [highest_priority] when each call is made, and
    with the static-node file and the hardcoded table unchanged, end alike:
    both return lists with the same elements, or both raise the same
    exception. *)
Theorem aggregate_seednode_uris_twice domains highest_priority1 highest_priority2 σ :
  let r1 := aggregate_seednode_uris domains highest_priority1 σ in
  let r2 := aggregate_seednode_uris domains highest_priority2 r1.2 in
  arg_contents r1.2 highest_priority2 = arg_contents σ highest_priority1 →
  result_contents r2 = result_contents r1.
Proof.
  intros r1 r2 Hsame. subst r1 r2.
  rewrite !aggregate_seednode_uris_result, Hsame.
  by destruct (aggregate_seednode_uris_frame domains highest_priority1 σ) as (-> & _).
Qed.

(** C9. An empty list passed as [highest_priority] is treated as [None]:
    for every enumeration of the domains the two calls do the same (the
    same result, a new list object, and the same final state), and the
    caller's empty list is still empty afterwards. *)
Theorem aggregate_seednode_uris_empty_is_None domains l σ :
  heap σ !! l = Some [] →
  aggregate_seednode_uris domains (Some l) σ = aggregate_seednode_uris domains None σ ∧
  result_contents (aggregate_seednode_uris domains (Some l) σ) =
    result_contents (aggregate_seednode_uris domains None σ) ∧
  (aggregate_seednode_uris domains (Some l) σ).1 ≠ Ok l ∧
  heap (aggregate_seednode_uris domains (Some l) σ).2 !! l = Some [].
Proof.
  intros Hl.
  assert (Hor : or_list (Some l) σ = new_list σ).
  { unfold or_list, contents. by rewrite (lookup_total_correct _ _ _ Hl). }
  assert (Heq : aggregate_seednode_uris domains (Some l) σ =
                aggregate_seednode_uris domains None σ).
  { rewrite !aggregate_seednode_uris_unfold. by rewrite Hor. }
  assert (Hfresh : fresh (dom (heap σ)) ≠ l).
  { intros <-. apply (is_fresh (dom (heap σ))), elem_of_dom. eauto. }
  split; [done|]. split; [by rewrite Heq|].
  rewrite aggregate_seednode_uris_unfold, Hor. unfold new_list.
  destruct (read_static_nodes (disk σ) domains None) as [static_nodes|e]; [|done].
  destruct (contributions static_nodes domains) as [bl [e|]]; simpl;
    (split; [congruence|]); by rewrite !lookup_insert_ne.
Qed.

(** ** [load_static_nodes] *)

(** C8. When there is no file at the path that [load_static_nodes]
    opens, the call returns an empty mapping and raises nothing, whatever
    the domains and the [filepath] argument; the state is left as it was. *)
Theorem load_static_nodes_absent domains (filepath : option string) σ :
  disk σ !! resolved_path filepath = None →
  load_static_nodes domains filepath σ = (Ok [], σ).
Proof. intros H. unfold load_static_nodes, read_static_nodes. by rewrite H. Qed.

(** C5, as amended. When the file holds valid JSON whose top level is not
    a mapping, [load_static_nodes] fails for every set of domains, with
    the AttributeError of the [.items()] call on the decoded value; the
    RuntimeError of the handler for invalid JSON is not raised. *)
Theorem load_static_nodes_not_a_mapping domains (filepath : option string) σ (v : pyval) :
  disk σ !! resolved_path filepath = Some (Json v) →
  (∀ d, v ≠ PDict d) →
  load_static_nodes domains filepath σ = (Raise (AttributeError (type_name v) "items"), σ).
Proof.
  intros H Hv. unfold load_static_nodes, read_static_nodes. rewrite H.
  destruct v; try done. by destruct (Hv d).
Qed.

(** ** [load_seednodes] *)

Section Bootstrap.
Variables (min_stake : Z) (federated_only : bool).
Variables (network_middleware : option RestMiddleware).
Variables (registry : option BaseContractRegistry).

Local Abbreviation attempts_on := (attempts min_stake federated_only network_middleware registry).
Local Abbreviation construct := (construct_ursulas min_stake federated_only network_middleware registry).

(** Every URI is attempted, once, in the order of the list. *)
Lemma attempts_uris (uris : list pyval) (w : World) : (attempts_on uris w).1.*1 = uris.
Proof.
  revert w. induction uris as [|uri rest IH]; intros w; simpl; [done|].
  destruct (from_teacher_uri _ _ _ _ _ w) as [o w1]. specialize (IH w1).
  destruct (attempts_on rest w1) as [tr w2]. simpl in *. by f_equal.
Qed.

(** While the failures are of the two recovered kinds, the loop goes
    through the whole list. *)
Lemma construct_ursulas_survivable (uris : list pyval) (teacher_nodes : list Ursula) σ :
  forallb survivable (attempts_on uris (world σ)).1 = true →
  construct uris teacher_nodes σ =
    (Ok (teacher_nodes ++ successes (attempts_on uris (world σ)).1),
     with_world (attempts_on uris (world σ)).2
       (with_trace (trace σ ++ notices (attempts_on uris (world σ)).1) σ)).
Proof.
  revert teacher_nodes σ. induction uris as [|uri rest IH]; intros teacher_nodes σ; simpl.
  - intros _. destruct σ. unfold with_world, with_trace. simpl. by rewrite !app_nil_r.
  - destruct (from_teacher_uri _ _ _ _ _ (world σ)) as [o w1] eqn:Ho.
    destruct (attempts_on rest w1) as [tr w2] eqn:Htr. simpl.
    unfold survivable at 1. simpl. intros [Ho_ok Hrest]%andb_true_iff.
    destruct o as [teacher_node|e].
    + rewrite IH; simpl; rewrite Htr; [|done]. simpl.
      unfold successes, notices. simpl. by rewrite <- app_assoc.
    + destruct e; try discriminate; run; unfold emit; rewrite IH; simpl; rewrite ?Htr;
        try done; unfold successes, notices; simpl; by rewrite <- app_assoc.
Qed.

(** The first failure of another kind ends the loop: it is raised, after
    the notices of the failures recovered before it. *)
Lemma construct_ursulas_fatal (uris : list pyval) (teacher_nodes : list Ursula) σ
    pre uri e post :
  (attempts_on uris (world σ)).1 = pre ++ (uri, Raise e) :: post →
  forallb survivable pre = true →
  recovered e = false →
  (construct uris teacher_nodes σ).1 = Raise e ∧
  trace (construct uris teacher_nodes σ).2 = trace σ ++ notices pre.
Proof.
  revert teacher_nodes σ pre.
  induction uris as [|uri' rest IH]; intros teacher_nodes σ pre; simpl.
  - by destruct pre.
  - destruct (from_teacher_uri _ _ _ _ _ (world σ)) as [o w1] eqn:Ho.
    destruct (attempts_on rest w1) as [tr w2] eqn:Htr. simpl.
    destruct pre as [|a pre]; simpl.
    + intros [= -> -> ->] _ He. rewrite app_nil_r. by destruct e.
    + intros [= <- ->]. unfold survivable at 1. simpl.
      intros [Ho_ok Hpre]%andb_true_iff He.
      destruct o as [teacher_node|e'].
      * destruct (IH (teacher_nodes ++ [teacher_node]) (with_world w1 σ) pre) as [-> ->];
          simpl; rewrite ?Htr; done.
      * destruct e'; try discriminate; run; unfold emit;
          match goal with
          | |- context [construct rest teacher_nodes ?σ1] =>
              destruct (IH teacher_nodes σ1 pre) as [-> ->]; simpl; rewrite ?Htr; try done
          end; unfold notices; simpl; by rewrite <- app_assoc.
Qed.

(** C1. Let [load_seednodes] have aggregated a list of URIs. The
    construction of a teacher is attempted for each URI once, in the order
    of the list.  If every failure among these attempts is a
    NodeSeemsToBeDown or a Teacher.NotStaking, the call returns the teachers
    that were constructed, in the order of their URIs, and has emitted one
    notice for each failed URI (and the notice that no peer was found when
    no teacher was constructed).  If an attempt fails with anything else,
    that exception is raised to the caller, by the first such attempt. *)
Theorem load_seednodes_in_order (network_domains : list string) (teacher_uris : option loc)
    σ l σ1 :
  aggregate_seednode_uris network_domains teacher_uris
    (with_trace (trace σ ++ [Message CONNECTING_TO_TEACHERS (Some "yellow")]) σ) = (Ok l, σ1) →
  let seeds :=
    load_seednodes min_stake federated_only network_domains network_middleware
      teacher_uris registry σ in
  let tried := attempts_on (contents σ1 l) (world σ) in
  tried.1.*1 = contents σ1 l ∧
  (forallb survivable tried.1 = true →
   seeds.1 = Ok (successes tried.1) ∧
   trace seeds.2 =
     trace σ ++ [Message CONNECTING_TO_TEACHERS (Some "yellow")] ++ notices tried.1 ++
       (if nonempty (successes tried.1) then []
        else [Message (NO_DOMAIN_PEERS network_domains) None]) ∧
   world seeds.2 = tried.2) ∧
  (∀ pre uri e post,
     tried.1 = pre ++ (uri, Raise e) :: post →
     forallb survivable pre = true →
     recovered e = false →
     seeds.1 = Raise e ∧
     trace seeds.2 =
       trace σ ++ [Message CONNECTING_TO_TEACHERS (Some "yellow")] ++ notices pre).
Proof.
  intros Hagg seeds tried.
  pose proof (aggregate_seednode_uris_frame network_domains teacher_uris
    (with_trace (trace σ ++ [Message CONNECTING_TO_TEACHERS (Some "yellow")]) σ)) as Hframe.
  rewrite Hagg in Hframe. simpl in Hframe. destruct Hframe as (_ & Ht & Hw).
  assert (Hseeds : seeds =
    if nonempty (contents σ1 l) then
      (teacher_nodes ← construct (contents σ1 l) [];
       (if nonempty teacher_nodes then mret ()
        else emit (NO_DOMAIN_PEERS network_domains) None);;
       mret teacher_nodes) σ1
    else (emit (NO_DOMAIN_PEERS network_domains) None;; mret []) σ1).
  { unfold seeds, load_seednodes. run. unfold emit at 1. rewrite Hagg.
    unfold read_list. by destruct (nonempty (contents σ1 l)). }
  split; [apply attempts_uris|]. subst tried. rewrite <- Hw in *. split.
  - intros Hall. rewrite Hseeds. destruct (contents σ1 l) as [|uri rest] eqn:Hl.
    + simpl. run. unfold emit. simpl. by rewrite Ht, <- app_assoc.
    + cbn [nonempty]. run. rewrite construct_ursulas_survivable by done.
      simpl app at 1.
      destruct (successes (attempts_on (uri :: rest) (world σ1)).1) as [|t ts];
        simpl; rewrite Ht, <- ?app_assoc; simpl; by rewrite ?app_nil_r.
  - intros pre uri e post Htried Hpre He. rewrite Hseeds.
    destruct (contents σ1 l) as [|uri' rest] eqn:Hl; [by destruct pre|].
    cbn [nonempty]. run.
    destruct (construct_ursulas_fatal (uri' :: rest) [] σ1 pre uri e post) as [H1 H2];
      try done.
    destruct (construct (uri' :: rest) [] σ1) as [[ts|e'] σ2]; simpl in *; [done|].
    by rewrite H2, Ht, <- app_assoc.
Qed.

End Bootstrap.

(** ** [determine_external_ip_address] *)

Lemma get_external_ip_unfold σ :
  get_external_ip_from_centralized_source σ =
    let '(o, w) := requests_get echo_url (world σ) in
    let σ' := State (heap σ) (disk σ) (trace σ ++ [Get echo_url]) w in
    match o with
    | Ok ip_request =>
        if status_code ip_request =? 200 then (Ok (text ip_request), σ')
        else (Raise (UnknownIPAddress (status_code ip_request)), σ')
    | Raise e => (Raise e, σ')
    end.
Proof.
  unfold get_external_ip_from_centralized_source, call, echo_url. run.
  destruct (requests_get _ (world σ)) as [[ip_request|e] w]; simpl; [|done].
  by destruct (status_code ip_request =? 200).
Qed.

(** C7. With [force] true: when the address-echo service answers with
    status 200, the call returns the body of the answer as it is, after one
    GET and one warning notice, and neither click collaborator has been
    invoked; when it answers with any other status, the call raises
    UnknownIPAddress. *)
Theorem determine_external_ip_address_forced σ (ip_request : response) (w : World) :
  requests_get echo_url (world σ) = (Ok ip_request, w) →
  (status_code ip_request = 200 →
   determine_external_ip_address true σ =
     (Ok (Some (text ip_request)),
      State (heap σ) (disk σ)
        (trace σ ++ [Get echo_url;
                     Message (FORCE_DETECT_URSULA_IP_WARNING (text ip_request)) (Some "yellow")])
        w)) ∧
  (status_code ip_request ≠ 200 →
   determine_external_ip_address true σ =
     (Raise (UnknownIPAddress (status_code ip_request)),
      State (heap σ) (disk σ) (trace σ ++ [Get echo_url]) w)).
Proof.
  intros Hget. unfold determine_external_ip_address.
  rewrite get_external_ip_unfold, Hget. split; intros Hstatus.
  - rewrite Hstatus. simpl. run. unfold emit, with_trace. simpl.
    by rewrite <- app_assoc.
  - by apply Z.eqb_neq in Hstatus as ->.
Qed.

(** C6, as amended. With [force] false, an answer of the address-echo
    service with a status other than 200 is swallowed: the call ends
    normally and returns [None], after the GET alone, with no notice and no
    prompt.  A failure raised by the HTTP client itself is not handled: it
    reaches the caller, whatever [force] is. *)
Theorem determine_external_ip_address_unforced_failure σ :
  (∀ (ip_request : response) (w : World),
     requests_get echo_url (world σ) = (Ok ip_request, w) →
     status_code ip_request ≠ 200 →
     determine_external_ip_address false σ =
       (Ok None, State (heap σ) (disk σ) (trace σ ++ [Get echo_url]) w)) ∧
  (∀ (e : exn) (w : World) (force : bool),
     requests_get echo_url (world σ) = (Raise e, w) →
     (∀ status, e ≠ UnknownIPAddress status) →
     determine_external_ip_address force σ =
       (Raise e, State (heap σ) (disk σ) (trace σ ++ [Get echo_url]) w)).
Proof.
  split.
  - intros ip_request w Hget Hstatus. unfold determine_external_ip_address.
    rewrite get_external_ip_unfold, Hget. by apply Z.eqb_neq in Hstatus as ->.
  - intros e w force Hget He. unfold determine_external_ip_address.
    rewrite get_external_ip_unfold, Hget.
    destruct e as [| | |status| | |]; try done. by destruct (He status).
Qed.

(** C10. The body of a 200 answer is returned as it is, whatever it is:
    with [force] true, and with [force] false when the user confirms it.
    Nothing tests it against [IPV4_ADDRESS].  Only when the user rejects it
    is the result subject to that type: the call then returns what
    [click.prompt] returns for the type [IPV4_ADDRESS], which that type
    accepts if the prompt honours its type. *)
Theorem determine_external_ip_address_unvalidated σ (body : string) (w : World) :
  requests_get echo_url (world σ) = (Ok (Response 200 body), w) →
  (determine_external_ip_address true σ).1 = Ok (Some body) ∧
  (∀ w', click_confirm (CONFIRM_URSULA_IPV4_ADDRESS body) w = (Ok true, w') →
         (determine_external_ip_address false σ).1 = Ok (Some body)) ∧
  (∀ w' typed w'',
     click_confirm (CONFIRM_URSULA_IPV4_ADDRESS body) w = (Ok false, w') →
     click_prompt COLLECT_URSULA_IPV4_ADDRESS IPV4_ADDRESS w' = (Ok typed, w'') →
     (determine_external_ip_address false σ).1 = Ok (Some typed) ∧
     (prompt_honours_type → IPV4_ADDRESS typed = true)).
Proof.
  intros Hget. unfold determine_external_ip_address.
  rewrite get_external_ip_unfold, Hget. simpl. split; [done|]. split.
  - intros w' Hconfirm. run. unfold call. simpl. by rewrite Hconfirm.
  - intros w' typed w'' Hconfirm Hprompt. run. unfold call. simpl.
    rewrite Hconfirm. simpl. rewrite Hprompt. split; [done|].
    intros Hhonours. by eapply Hhonours.
Qed.

End Properties.

(** * The scenarios *)

Lemma scripted_prompt_accepted (type : string → bool) (lines : list string) s rest :
  scripted_prompt type lines = (Ok s, rest) → type s = true.
Proof.
  induction lines as [|line lines IH]; simpl; [done|].
  destruct (type line) eqn:Hline; [|done]. by intros [= <- _].
Qed.

Lemma scripted_prompt_honours_type config_root teachers :
  prompt_honours_type (env := scripted config_root teachers).
Proof.
  intros m type w s w'. simpl.
  destruct (scripted_prompt type (typed_lines w)) as [o rest] eqn:Hp.
  intros [= -> _]. by eapply scripted_prompt_accepted.
Qed.

(** The aggregation of the scenario: the explicit URI, the static node,
    the hardcoded teacher. *)
Example alpha_aggregated :
  result_contents (aggregate_seednode_uris (env := alpha_env) ["alpha"] (Some 1%positive)
                     (alpha_state quiet)) =
    Ok [PStr "node://C"; PStr "node://A"; PStr "node://B"].
Proof. by vm_compute. Qed.

(** An aggregated URI that is no string makes the scripted constructor
    fail with a TypeError, which [load_seednodes] lets through. *)
Example load_seednodes_lets_through :
  (load_seednodes (env := alpha_env) 0 false ["alpha"] None None None
     (State (env := alpha_env) ∅
        {[ "/etc/nucypher/static-nodes.json" := Json (PDict [("alpha", PList [PInt 7])]) ]}
        [] quiet)).1 = Raise (TypeError "int").
Proof. by vm_compute. Qed.

(** C3 (the code departs from the claim). In the scenario, the list
    object passed as [highest_priority] is the object the call returns,
    and the call has appended the static node and the hardcoded teacher to
    it in place: the caller's list has changed, no copy was made. *)
Theorem aggregate_seednode_uris_extends_argument :
  let σ := alpha_state quiet in
  let r := aggregate_seednode_uris (env := alpha_env) ["alpha"] (Some 1%positive) σ in
  contents σ 1%positive = [PStr "node://C"] ∧
  r.1 = Ok 1%positive ∧
  contents r.2 1%positive = [PStr "node://C"; PStr "node://A"; PStr "node://B"].
Proof. by vm_compute. Qed.

(** C1, on the scenario: ["node://A"] is down, the teachers of
    ["node://C"] and ["node://B"] are returned in that order. *)
Lemma load_seednodes_in_order_witness :
  let seeds :=
    load_seednodes (env := alpha_env) 0 false ["alpha"] None (Some 1%positive) None
      (alpha_state a_is_down) in
  seeds.1 = Ok ["node://C"; "node://B"] ∧
  trace seeds.2 = [Message CONNECTING_TO_TEACHERS (Some "yellow");
                   Message (FAILED_TO_CONNECT (PStr "node://A")) None].
Proof.
  pose (σ := alpha_state a_is_down).
  pose (σ0 := with_trace (trace σ ++ [Message CONNECTING_TO_TEACHERS (Some "yellow")]) σ).
  pose (σ1 := (aggregate_seednode_uris (env := alpha_env) ["alpha"] (Some 1%positive) σ0).2).
  destruct (load_seednodes_in_order (env := alpha_env) 0 false None None
              ["alpha"] (Some 1%positive) σ 1%positive σ1) as (_ & Hin_order & _).
  - by vm_compute.
  - destruct Hin_order as (Hresult & Htrace & _); [by vm_compute|].
    split; [exact Hresult|exact Htrace].
Defined.

(** C4, as stated, fails: the same two domains enumerated in two orders
    give two different lists. *)
Lemma aggregate_seednode_uris_order_matters :
  ["alpha"; "beta"] ≡ₚ ["beta"; "alpha"] ∧
  result_contents (aggregate_seednode_uris (env := alpha_beta_env) ["alpha"; "beta"] None
                     alpha_beta_state) ≠
  result_contents (aggregate_seednode_uris (env := alpha_beta_env) ["beta"; "alpha"] None
                     alpha_beta_state).
Proof. split; [apply Permutation_swap|]. by vm_compute. Qed.

(** C4, as amended, on two lists with the same element passed one after
    the other. *)
Lemma aggregate_seednode_uris_twice_witness :
  let r1 := aggregate_seednode_uris (env := alpha_beta_env) ["alpha"; "beta"]
              (Some 1%positive) alpha_beta_state in
  let r2 := aggregate_seednode_uris (env := alpha_beta_env) ["alpha"; "beta"]
              (Some 2%positive) r1.2 in
  result_contents r1 = Ok [PStr "node://C"; PStr "node://A"; PStr "node://B"] ∧
  result_contents r2 = result_contents r1.
Proof.
  split; [by vm_compute|].
  apply (aggregate_seednode_uris_twice (env := alpha_beta_env) ["alpha"; "beta"]
           (Some 1%positive) (Some 2%positive) alpha_beta_state).
  by vm_compute.
Defined.

(** C5, as stated, fails: with an array in the file, the call does not
    raise the RuntimeError that reports invalid JSON, it raises an
    AttributeError. *)
Lemma load_static_nodes_array_is_not_reported :
  (load_static_nodes (env := alpha_env) ["alpha"] None array_state).1 =
    Raise (AttributeError "list" "items") ∧
  (load_static_nodes (env := alpha_env) ["alpha"] None array_state).1 ≠
    Raise (RuntimeError
             "Static nodes file '/etc/nucypher/static-nodes.json' contains invalid JSON.").
Proof. split; by vm_compute. Qed.

(** C5, as amended, on the array of the scenario. *)
Lemma load_static_nodes_not_a_mapping_witness :
  load_static_nodes (env := alpha_env) ["alpha"] None array_state =
    (Raise (AttributeError "list" "items"), array_state).
Proof.
  apply (load_static_nodes_not_a_mapping (env := alpha_env) ["alpha"] None array_state
           (PList [PStr "node://A"])).
  - by vm_compute.
  - intros d. discriminate.
Defined.

(** C8, on a disk without the file, for the default path and for a given
    one. *)
Lemma load_static_nodes_absent_witness :
  load_static_nodes (env := alpha_env) ["alpha"] None bare_state = (Ok [], bare_state) ∧
  load_static_nodes (env := alpha_env) ["alpha"] (Some "nodes.json") bare_state =
    (Ok [], bare_state).
Proof.
  split.
  - apply (load_static_nodes_absent (env := alpha_env) ["alpha"] None bare_state).
    by vm_compute.
  - apply (load_static_nodes_absent (env := alpha_env) ["alpha"] (Some "nodes.json")
             bare_state).
    by vm_compute.
Defined.

(** C9, on the scenario with an empty list: the result is the one for
    [None], in a new list object, and the caller's list stays empty. *)
Lemma aggregate_seednode_uris_empty_is_None_witness :
  result_contents (aggregate_seednode_uris (env := alpha_env) ["alpha"] (Some 1%positive)
                     empty_list_state) =
    result_contents (aggregate_seednode_uris (env := alpha_env) ["alpha"] None
                       empty_list_state) ∧
  heap (aggregate_seednode_uris (env := alpha_env) ["alpha"] (Some 1%positive)
          empty_list_state).2 !! 1%positive = Some [].
Proof.
  destruct (aggregate_seednode_uris_empty_is_None (env := alpha_env) ["alpha"] 1%positive
              empty_list_state) as (_ & Hsame & _ & Hkept).
  - by vm_compute.
  - split; [exact Hsame|exact Hkept].
Defined.

(** C7, on the scenario: a 200 answer is returned as it is, a 500 answer
    raises UnknownIPAddress. *)
Lemma determine_external_ip_address_forced_witness :
  determine_external_ip_address (env := alpha_env) true (alpha_state quiet) =
    (Ok (Some "203.0.113.7"),
     State (env := alpha_env) {[ 1%positive := [PStr "node://C"] ]} alpha_disk
       [Get echo_url; Message (FORCE_DETECT_URSULA_IP_WARNING "203.0.113.7") (Some "yellow")]
       quiet) ∧
  determine_external_ip_address (env := alpha_env) true (alpha_state echo_fails) =
    (Raise (UnknownIPAddress 500),
     State (env := alpha_env) {[ 1%positive := [PStr "node://C"] ]} alpha_disk
       [Get echo_url] echo_fails).
Proof.
  split.
  - destruct (determine_external_ip_address_forced (env := alpha_env) (alpha_state quiet)
                (Response 200 "203.0.113.7") quiet) as [H200 _]; [reflexivity|].
    apply H200. reflexivity.
  - destruct (determine_external_ip_address_forced (env := alpha_env) (alpha_state echo_fails)
                (Response 500 "Internal Server Error") echo_fails) as [_ Hother];
      [reflexivity|].
    apply Hother. discriminate.
Defined.

(** C6, as stated, fails: with [force] false and a 500 answer the call
    ends normally, with [None]; no exception reaches the caller. *)
Lemma determine_external_ip_address_swallows_failure :
  requests_get (Environment := alpha_env) echo_url echo_fails =
    (Ok (Response 500 "Internal Server Error"), echo_fails) ∧
  (determine_external_ip_address (env := alpha_env) false (alpha_state echo_fails)).1 = Ok None.
Proof. split; reflexivity. Qed.

(** C6, as amended, on the scenario with the 500 answer. *)
Lemma determine_external_ip_address_unforced_failure_witness :
  determine_external_ip_address (env := alpha_env) false (alpha_state echo_fails) =
    (Ok None,
     State (env := alpha_env) {[ 1%positive := [PStr "node://C"] ]} alpha_disk
       [Get echo_url] echo_fails).
Proof.
  destruct (determine_external_ip_address_unforced_failure (env := alpha_env)
              (alpha_state echo_fails)) as [Hswallowed _].
  apply (Hswallowed (Response 500 "Internal Server Error") echo_fails).
  - reflexivity.
  - discriminate.
Defined.

(** C10, on the scenario where the body is a page: it is no IPv4 address
    and it is returned, forced or confirmed; when the user rejects it, the
    first typed line that is an IPv4 address is returned. *)
Lemma determine_external_ip_address_unvalidated_witness :
  is_ipv4 "<html>hello</html>" = false ∧
  (determine_external_ip_address (env := alpha_env) true (alpha_state (echo_page true))).1 =
    Ok (Some "<html>hello</html>") ∧
  (determine_external_ip_address (env := alpha_env) false (alpha_state (echo_page true))).1 =
    Ok (Some "<html>hello</html>") ∧
  (determine_external_ip_address (env := alpha_env) false (alpha_state (echo_page false))).1 =
    Ok (Some "10.0.0.7") ∧
  is_ipv4 "10.0.0.7" = true.
Proof.
  split; [reflexivity|].
  destruct (determine_external_ip_address_unvalidated (env := alpha_env)
              (alpha_state (echo_page true)) "<html>hello</html>" (echo_page true))
    as (Hforced & Hconfirmed & _); [reflexivity|].
  destruct (determine_external_ip_address_unvalidated (env := alpha_env)
              (alpha_state (echo_page false)) "<html>hello</html>" (echo_page false))
    as (_ & _ & Hrejected); [reflexivity|].
  destruct (Hrejected (echo_page false) "10.0.0.7"
              (Script (Ok (Response 200 "<html>hello</html>")) (Ok false) [] [] []))
    as [Htyped Hvalid]; [reflexivity|reflexivity|].
  split; [exact Hforced|]. split; [apply (Hconfirmed (echo_page true)); reflexivity|].
  split; [exact Htyped|].
  apply Hvalid. apply scripted_prompt_honours_type.
Defined.

(** * Further properties *)

(** ** Dictionaries *)

Lemma dict_set_fresh (d : dict) (k : string) (v : pyval) :
  k ∉ d.*1 → dict_set d k v = d ++ [(k, v)].
Proof.
  induction d as [|[k' v'] d IH]; simpl; [done|].
  intros [Hne Hd]%not_elem_of_cons. destruct (decide (k' = k)); [congruence|].
  by rewrite IH.
Qed.

Lemma dict_get_filter (keys : list string) (d : dict) (k : string) :
  dict_get (filter (λ kv, kv.1 ∈ keys) d) k =
    if decide (k ∈ keys) then dict_get d k else PNone.
Proof.
  induction d as [|[k' v'] d IH]; simpl; [by destruct (decide (k ∈ keys))|].
  rewrite filter_cons. simpl. destruct (decide (k' ∈ keys)) as [Hk'|Hk']; simpl.
  - destruct (decide (k' = k)) as [->|]; [by destruct (decide (k ∈ keys))|by rewrite IH].
  - rewrite IH. destruct (decide (k' = k)) as [->|]; [by destruct (decide (k ∈ keys))|done].
Qed.

Section Coverage.
Context `{env : Environment}.

Implicit Types (σ : state env) (l uris : loc) (domains : list string).
Implicit Types (static_nodes : dict) (highest_priority : option loc).

(** ** [load_static_nodes] *)

Lemma filter_domains_fold domains (its acc : dict) :
  NoDup its.*1 →
  (∀ k, k ∈ its.*1 → k ∉ acc.*1) →
  fold_left
    (λ acc '(domain, uris), if set_contains domains domain then dict_set acc domain uris else acc)
    its acc = acc ++ filter (λ kv, kv.1 ∈ domains) its.
Proof.
  revert acc. induction its as [|[k v] its IH]; intros acc Hnodup Hfresh; simpl.
  - by rewrite app_nil_r.
  - apply NoDup_cons in Hnodup as [Hk Hnodup]. rewrite filter_cons. simpl.
    unfold set_contains. destruct (decide (k ∈ domains)) as [Hin|Hout].
    + rewrite bool_decide_eq_true_2 by done.
      rewrite dict_set_fresh by (apply Hfresh; left).
      rewrite IH; [by rewrite <- app_assoc|done|].
      intros k' Hk'. rewrite fmap_app. apply not_elem_of_app. split.
      * apply Hfresh. by right.
      * simpl. intros ->%list_elem_of_singleton. done.
    + rewrite bool_decide_eq_false_2 by done. apply IH; [done|].
      intros k' Hk'. apply Hfresh. by right.
Qed.

(** X1. A static-node file whose top level is a mapping is returned
    restricted to the requested domains: the entries of the other domains
    are dropped, the entries kept are in the order of the file, and looking
    a domain up in the result gives the file's value for a requested domain
    and [None] for any other.  (The keys of a decoded JSON object are
    distinct.) *)
Theorem load_static_nodes_restricts domains (filepath : option string) σ (its : dict) :
  disk σ !! resolved_path filepath = Some (Json (PDict its)) →
  NoDup its.*1 →
  ∃ static_nodes,
    load_static_nodes domains filepath σ = (Ok static_nodes, σ) ∧
    static_nodes = filter (λ kv, kv.1 ∈ domains) its ∧
    ∀ domain,
      dict_get static_nodes domain =
        if decide (domain ∈ domains) then dict_get its domain else PNone.
Proof.
  intros Hfile Hnodup. exists (filter (λ kv, kv.1 ∈ domains) its).
  unfold load_static_nodes, read_static_nodes. rewrite Hfile. simpl.
  unfold filter_domains. rewrite filter_domains_fold; [|done|]; simpl.
  - split; [done|]. split; [done|]. intros domain.
    apply dict_get_filter.
  - intros k _ Hk. inversion Hk.
Qed.

(** ** [aggregate_seednode_uris] *)

Lemma filter_domains_ext domains1 domains2 (its : dict) :
  (∀ domain, domain ∈ domains1 ↔ domain ∈ domains2) →
  filter_domains domains1 its = filter_domains domains2 its.
Proof.
  intros Hsame. unfold filter_domains. generalize ([] : dict).
  induction its as [|[k v] its IH]; intros acc; simpl; [done|].
  assert (set_contains domains1 k = set_contains domains2 k) as ->; [|apply IH].
  unfold set_contains. apply bool_decide_ext, Hsame.
Qed.

Lemma read_static_nodes_ext (d : gmap string file) domains1 domains2 (filepath : option string) :
  (∀ domain, domain ∈ domains1 ↔ domain ∈ domains2) →
  read_static_nodes d domains1 filepath = read_static_nodes d domains2 filepath.
Proof.
  intros Hsame. unfold read_static_nodes.
  destruct (d !! resolved_path filepath) as [[e| |v]|]; try done.
  destruct (items v); [|done]. by rewrite (filter_domains_ext _ _ _ Hsame).
Qed.

Lemma contributions_no_error static_nodes domains :
  (contributions static_nodes domains).2 = None ↔
  Forall (λ domain, ∀ e, static_block static_nodes domain ≠ Raise e) domains.
Proof.
  induction domains as [|domain rest IH]; simpl; [by split; [constructor|]|].
  destruct (static_block static_nodes domain) as [xs|e] eqn:Hblock.
  - destruct (contributions static_nodes rest) as [ys err]. simpl in *.
    rewrite IH. split.
    + intros Hrest. constructor; [by rewrite Hblock|done].
    + by intros [_ Hrest]%Forall_cons.
  - simpl. split; [done|]. intros [Hdomain _]%Forall_cons.
    rewrite Hblock in Hdomain. by destruct (Hdomain e).
Qed.

Lemma contributions_blocks static_nodes domains :
  (contributions static_nodes domains).2 = None →
  (contributions static_nodes domains).1 = domains ≫= domain_block static_nodes.
Proof.
  induction domains as [|domain rest IH]; simpl; [done|].
  unfold domain_block at 1.
  destruct (static_block static_nodes domain) as [xs|e]; [|done].
  destruct (contributions static_nodes rest) as [ys err]. simpl in *.
  intros Herr. by rewrite IH, <- app_assoc.
Qed.

(** X2. When the static-node file cannot be read ([open] fails with
    something else than FileNotFoundError, or the content is not JSON, or
    its top level has no [.items()]), [aggregate_seednode_uris] raises that
    exception before it creates or extends any list: the state is left
    exactly as it was.  [load_seednodes] raises it too, after the
    "connecting" notice and before any teacher is constructed. *)
Theorem static_nodes_failure_propagates (min_stake : Z) (federated_only : bool) domains
    (network_middleware : option RestMiddleware) highest_priority
    (registry : option BaseContractRegistry) σ (e : exn) :
  read_static_nodes (disk σ) domains None = Raise e →
  aggregate_seednode_uris domains highest_priority σ = (Raise e, σ) ∧
  load_seednodes min_stake federated_only domains network_middleware highest_priority
    registry σ =
    (Raise e, with_trace (trace σ ++ [Message CONNECTING_TO_TEACHERS (Some "yellow")]) σ).
Proof.
  intros Hread. split.
  - by rewrite aggregate_seednode_uris_unfold, Hread.
  - unfold load_seednodes. run. unfold emit at 1.
    by rewrite aggregate_seednode_uris_unfold; simpl; rewrite Hread.
Qed.

(** X3. Domains for which the static-node file has no entry, or an entry
    that is false in Python's sense ([null], [false], [0], an empty string,
    list or mapping), and for which the hardcoded table has nothing,
    contribute nothing and raise nothing: the call returns the elements of
    [highest_priority] alone.  An empty set of domains is such a case. *)
Theorem aggregate_seednode_uris_skips_empty_entries domains highest_priority σ static_nodes :
  read_static_nodes (disk σ) domains None = Ok static_nodes →
  Forall (λ domain, truthy (dict_get static_nodes domain) = false ∧
                    default [] (TEACHER_NODES !! domain) = []) domains →
  result_contents (aggregate_seednode_uris domains highest_priority σ) =
    Ok (arg_contents σ highest_priority).
Proof.
  intros Hread Hall. rewrite aggregate_seednode_uris_result. unfold aggregated_uris.
  rewrite Hread.
  assert (Hnone : contributions static_nodes domains = ([], None)).
  { clear Hread. induction Hall as [|domain rest [Hfalsy Hhard] _ IH]; simpl; [done|].
    unfold static_block, hardcoded_block. by rewrite Hfalsy, Hhard, IH. }
  by rewrite Hnone, app_nil_r.
Qed.

(** X4. The order in which the set of domains is enumerated only
    permutes what the domains contribute: two calls on the same disk with
    the same elements in [highest_priority] and the same domains in two
    orders both return or both raise, and when they return, both lists
    start with the elements of [highest_priority] and their remainders are
    permutations of one another. *)
Theorem aggregate_seednode_uris_permuted domains1 domains2 highest_priority1
    highest_priority2 σ1 σ2 :
  domains1 ≡ₚ domains2 →
  disk σ1 = disk σ2 →
  arg_contents σ1 highest_priority1 = arg_contents σ2 highest_priority2 →
  match result_contents (aggregate_seednode_uris domains1 highest_priority1 σ1),
        result_contents (aggregate_seednode_uris domains2 highest_priority2 σ2) with
  | Ok out1, Ok out2 =>
      ∃ rest1 rest2,
        out1 = arg_contents σ1 highest_priority1 ++ rest1 ∧
        out2 = arg_contents σ1 highest_priority1 ++ rest2 ∧
        rest1 ≡ₚ rest2
  | Raise _, Raise _ => True
  | _, _ => False
  end.
Proof.
  intros Hperm Hdisk Harg. rewrite !aggregate_seednode_uris_result, <- Hdisk, <- Harg.
  unfold aggregated_uris.
  rewrite (read_static_nodes_ext (disk σ1) domains1 domains2 None)
    by (intros domain; by rewrite Hperm).
  destruct (read_static_nodes (disk σ1) domains2 None) as [static_nodes|e]; [|done].
  assert (Herr : (contributions static_nodes domains1).2 = None ↔
                 (contributions static_nodes domains2).2 = None).
  { rewrite !contributions_no_error.
    split; apply Permutation_Forall; [done|by symmetry]. }
  pose proof (contributions_blocks static_nodes domains1) as B1.
  pose proof (contributions_blocks static_nodes domains2) as B2.
  destruct (contributions static_nodes domains1) as [bl1 [e1|]],
           (contributions static_nodes domains2) as [bl2 [e2|]]; simpl in *; try done.
  - by destruct Herr as [_ Herr]; specialize (Herr eq_refl).
  - by destruct Herr as [Herr _]; specialize (Herr eq_refl).
  - exists bl1, bl2. split; [done|]. split; [done|]. by rewrite B1, B2, Hperm.
Qed.

(** X5. A list that is not empty and is passed as [highest_priority]
    twice accumulates: the first call extends it by the contributions of the
    domains, and the second call, given the same list object, returns it
    with those contributions a second time. *)
Theorem aggregate_seednode_uris_accumulates domains l σ uris σ1 :
  contents σ l ≠ [] →
  aggregate_seednode_uris domains (Some l) σ = (Ok uris, σ1) →
  ∃ bl,
    contents σ1 l = contents σ l ++ bl ∧
    result_contents (aggregate_seednode_uris domains (Some l) σ1) =
      Ok (contents σ l ++ bl ++ bl).
Proof.
  intros Hne Hfirst.
  pose proof (aggregate_seednode_uris_frame domains (Some l) σ) as Hframe.
  pose proof (aggregate_seednode_uris_result domains (Some l) σ) as Hresult.
  rewrite Hfirst in Hframe, Hresult. simpl in Hframe. destruct Hframe as (Hdisk & _).
  destruct (aggregate_seednode_uris_alias domains l σ uris σ1 Hne Hfirst)
    as (-> & static_nodes & Hread & Hl).
  exists (contributions static_nodes domains).1. split; [done|].
  rewrite aggregate_seednode_uris_result, Hdisk. unfold aggregated_uris in *.
  rewrite Hread in *. unfold result_contents in Hresult. simpl in *.
  destruct (contributions static_nodes domains) as [bl [e|]]; [done|]. simpl in *.
  by rewrite Hl, <- app_assoc.
Qed.

(** X6. The extension of the caller's list is not undone by a failure:
    when a static-file entry cannot be iterated, the call raises the
    TypeError, and the caller's list has by then received what the domains
    enumerated before the offending one contributed. *)
Theorem aggregate_seednode_uris_fails_halfway domains l σ static_nodes bl (e : exn) :
  contents σ l ≠ [] →
  read_static_nodes (disk σ) domains None = Ok static_nodes →
  contributions static_nodes domains = (bl, Some e) →
  (aggregate_seednode_uris domains (Some l) σ).1 = Raise e ∧
  contents (aggregate_seednode_uris domains (Some l) σ).2 l = contents σ l ++ bl.
Proof.
  intros Hne Hread Hbl. rewrite aggregate_seednode_uris_unfold, Hread. unfold or_list.
  destruct (contents σ l) as [|x xs] eqn:Hl; [done|]. simpl. rewrite Hbl. simpl.
  by rewrite contents_extended, Hl.
Qed.

(** X7. The only list object that exists before the call and that the
    call can change is a non-empty [highest_priority]: every other list
    object is as it was afterwards, whether the call returns or raises, and
    so are the disk, the trace and the world. *)
Theorem aggregate_seednode_uris_touches_one_list domains highest_priority σ l' :
  is_Some (heap σ !! l') →
  (highest_priority = Some l' → contents σ l' = []) →
  let σ' := (aggregate_seednode_uris domains highest_priority σ).2 in
  heap σ' !! l' = heap σ !! l' ∧
  disk σ' = disk σ ∧ trace σ' = trace σ ∧ world σ' = world σ.
Proof.
  intros Hl' Hother σ'. split; [|apply aggregate_seednode_uris_frame].
  subst σ'. rewrite aggregate_seednode_uris_unfold.
  destruct (read_static_nodes (disk σ) domains None) as [static_nodes|e]; [|done].
  assert (Hfresh : fresh (dom (heap σ)) ≠ l').
  { intros <-. by apply (is_fresh (dom (heap σ))), elem_of_dom. }
  assert (Hnew : ∀ bl, heap (extended (new_list σ).2 (fresh (dom (heap σ))) bl) !! l' =
                       heap σ !! l').
  { intros bl. simpl. by rewrite !lookup_insert_ne. }
  destruct highest_priority as [l|]; simpl.
  - destruct (contents σ l) as [|x xs] eqn:Hl; simpl.
    + destruct (contributions static_nodes domains) as [bl [e|]]; apply Hnew.
    + assert (l ≠ l') by (intros ->; by rewrite Hother in Hl).
      destruct (contributions static_nodes domains) as [bl [e|]]; simpl;
        by rewrite lookup_insert_ne.
  - destruct (contributions static_nodes domains) as [bl [e|]]; apply Hnew.
Qed.


(** X9. When [highest_priority] is [None] or an empty list, the list the
    call returns is a new object: it exists after the call, and no list
    object was at its location before. *)
Theorem aggregate_seednode_uris_new_list domains highest_priority σ uris σ' :
  arg_contents σ highest_priority = [] →
  aggregate_seednode_uris domains highest_priority σ = (Ok uris, σ') →
  heap σ !! uris = None ∧ is_Some (heap σ' !! uris).
Proof.
  intros Hempty. rewrite aggregate_seednode_uris_unfold.
  destruct (read_static_nodes (disk σ) domains None) as [static_nodes|e]; [|done].
  assert (Hor : or_list highest_priority σ = new_list σ).
  { destruct highest_priority as [l|]; [|done]. simpl in *. by rewrite Hempty. }
  rewrite Hor. unfold new_list.
  destruct (contributions static_nodes domains) as [bl [e|]]; [done|].
  intros [= <- <-]. split; [apply not_elem_of_dom, is_fresh|].
  simpl. rewrite lookup_insert_eq. eauto.
Qed.

(** ** [load_seednodes] *)

Section MoreBootstrap.
Variables (min_stake : Z) (federated_only : bool).
Variables (network_middleware : option RestMiddleware).
Variables (registry : option BaseContractRegistry).

Local Abbreviation tried_on := (attempts min_stake federated_only network_middleware registry).
Local Abbreviation constructed :=
  (construct_ursulas min_stake federated_only network_middleware registry).
Local Abbreviation seednodes network_domains teacher_uris :=
  (load_seednodes min_stake federated_only network_domains network_middleware teacher_uris
     registry).
Local Abbreviation announced σ :=
  (with_trace (trace σ ++ [Message CONNECTING_TO_TEACHERS (Some "yellow")]) σ).

(** The loop leaves the list objects and the disk alone, and adds nothing
    to the trace but notices of failed URIs. *)
Lemma construct_ursulas_keeps (uris : list pyval) (teacher_nodes : list Ursula) σ :
  heap (constructed uris teacher_nodes σ).2 = heap σ ∧
  disk (constructed uris teacher_nodes σ).2 = disk σ ∧
  ∃ evs, trace (constructed uris teacher_nodes σ).2 = trace σ ++ evs ∧
         forallb failure_notice evs = true.
Proof.
  revert teacher_nodes σ. induction uris as [|uri rest IH]; intros teacher_nodes σ; simpl.
  - split; [done|]. split; [done|]. exists []. by rewrite app_nil_r.
  - destruct (from_teacher_uri _ _ _ _ _ (world σ)) as [[teacher_node|e] w].
    + exact (IH (teacher_nodes ++ [teacher_node]) (with_world w σ)).
    + assert (Hstop : ∀ r : outcome (list Ursula) * state env, r = (Raise e, with_world w σ) →
                heap r.2 = heap σ ∧ disk r.2 = disk σ ∧
                ∃ evs, trace r.2 = trace σ ++ evs ∧ forallb failure_notice evs = true).
      { intros r ->. split; [done|]. split; [done|]. exists []. by rewrite app_nil_r. }
      destruct e; try by apply Hstop.
      * run. unfold emit.
        destruct (IH teacher_nodes
                    (with_trace (trace (with_world w σ) ++
                                 [Message (FAILED_TO_CONNECT uri) None]) (with_world w σ)))
          as (Hh & Hd & evs & Ht & Hevs).
        split; [done|]. split; [done|].
        exists (Message (FAILED_TO_CONNECT uri) None :: evs). split; [|done].
        rewrite Ht. simpl. by rewrite <- app_assoc.
      * run. unfold emit.
        destruct (IH teacher_nodes
                    (with_trace (trace (with_world w σ) ++
                                 [Message (SEEDNODE_NOT_STAKING_WARNING uri) None])
                       (with_world w σ)))
          as (Hh & Hd & evs & Ht & Hevs).
        split; [done|]. split; [done|].
        exists (Message (SEEDNODE_NOT_STAKING_WARNING uri) None :: evs). split; [|done].
        rewrite Ht. simpl. by rewrite <- app_assoc.
Qed.

Lemma load_seednodes_unfold (network_domains : list string) (teacher_uris : option loc) σ :
  seednodes network_domains teacher_uris σ =
    match aggregate_seednode_uris network_domains teacher_uris (announced σ) with
    | (Raise e, σ1) => (Raise e, σ1)
    | (Ok l, σ1) =>
        if nonempty (contents σ1 l) then
          match constructed (contents σ1 l) [] σ1 with
          | (Ok teacher_nodes, σ2) =>
              (Ok teacher_nodes,
               if nonempty teacher_nodes then σ2
               else with_trace (trace σ2 ++ [Message (NO_DOMAIN_PEERS network_domains) None]) σ2)
          | (Raise e, σ2) => (Raise e, σ2)
          end
        else
          (Ok [], with_trace (trace σ1 ++ [Message (NO_DOMAIN_PEERS network_domains) None]) σ1)
    end.
Proof.
  unfold load_seednodes. run. unfold emit at 1.
  destruct (aggregate_seednode_uris network_domains teacher_uris _) as [[l|e] σ1]; [|done].
  unfold read_list. destruct (nonempty (contents σ1 l)); [|done].
  destruct (constructed (contents σ1 l) [] σ1) as [[teacher_nodes|e] σ2]; [|done].
  by destruct teacher_nodes.
Qed.

Lemma notices_are_failure_notices {A} (tr : list (pyval * outcome A)) :
  forallb failure_notice (notices tr) = true.
Proof.
  induction tr as [|[uri [t|e]] tr IH]; simpl; try done.
  unfold notices in *. simpl. by destruct e.
Qed.

Lemma successes_and_notices {A} (tr : list (pyval * outcome A)) :
  forallb survivable tr = true →
  (length (successes tr) + length (notices tr) = length tr)%nat.
Proof.
  induction tr as [|[uri [t|e]] tr IH]; simpl; [done| |].
  - intros Htr. unfold successes, notices in *. simpl. by rewrite IH.
  - unfold survivable at 1. simpl. intros [He Htr]%andb_true_iff.
    unfold successes, notices in *. simpl.
    destruct e; try discriminate; simpl; rewrite <- (IH Htr); lia.
Qed.

Lemma filter_all {A} (f : A → bool) (xs : list A) :
  forallb f xs = true → List.filter f xs = xs.
Proof.
  induction xs as [|x xs IH]; simpl; [done|].
  intros [-> Hxs]%andb_true_iff. by rewrite IH.
Qed.

(** X10. When the failures are of the two recovered kinds, every
    aggregated URI is accounted for exactly once: the number of teachers
    returned plus the number of failure notices emitted is the number of
    aggregated URIs. *)
Theorem load_seednodes_accounts_for_every_uri (network_domains : list string)
    (teacher_uris : option loc) σ l σ1 :
  aggregate_seednode_uris network_domains teacher_uris (announced σ) = (Ok l, σ1) →
  forallb survivable (tried_on (contents σ1 l) (world σ)).1 = true →
  ∃ teacher_nodes,
    (seednodes network_domains teacher_uris σ).1 = Ok teacher_nodes ∧
    (length teacher_nodes +
     length (List.filter failure_notice
               (new_events σ (seednodes network_domains teacher_uris σ).2)) =
     length (contents σ1 l))%nat.
Proof.
  intros Hagg Hall.
  pose proof (aggregate_seednode_uris_frame network_domains teacher_uris (announced σ))
    as Hframe.
  rewrite Hagg in Hframe. simpl in Hframe. destruct Hframe as (_ & Ht & Hw).
  rewrite <- Hw in Hall. rewrite load_seednodes_unfold, Hagg.
  pose proof (attempts_uris min_stake federated_only network_middleware registry
                (contents σ1 l) (world σ1)) as Huris.
  apply (f_equal length) in Huris. rewrite length_fmap in Huris.
  pose proof (successes_and_notices _ Hall) as Hcount. rewrite Huris in Hcount.
  unfold new_events.
  destruct (contents σ1 l) as [|uri rest] eqn:Hl.
  - exists []. split; [done|]. simpl. rewrite Ht, <- app_assoc.
    by rewrite drop_app_length.
  - cbn [nonempty]. rewrite construct_ursulas_survivable by done.
    set (tr := (tried_on (uri :: rest) (world σ1)).1) in *.
    exists (successes tr). split; [done|]. rewrite <- Hcount. f_equal.
    assert (Hdrop : ∀ tail,
      List.filter failure_notice
        (drop (length (trace σ)) ((trace σ1 ++ notices tr) ++ tail)) =
      notices tr ++ List.filter failure_notice tail).
    { intros tail. rewrite Ht, <- !app_assoc, drop_app_length. simpl.
      by rewrite List.filter_app, (filter_all _ _ (notices_are_failure_notices tr)). }
    destruct (successes tr) as [|t ts]; simpl.
    + rewrite Hdrop. simpl. by rewrite app_nil_r.
    + rewrite <- (app_nil_r (trace σ1 ++ notices tr)), Hdrop. simpl. by rewrite app_nil_r.
Qed.

(** X11. Whatever the arguments and whatever happens, the first thing
    [load_seednodes] does is to emit the "connecting" notice; everything it
    adds to the trace is an emitter message (it never queries the
    address-echo service and never asks the user), and it does not change
    the disk. *)
Theorem load_seednodes_announces_first (network_domains : list string)
    (teacher_uris : option loc) σ :
  ∃ evs,
    trace (seednodes network_domains teacher_uris σ).2 =
      trace σ ++ Message CONNECTING_TO_TEACHERS (Some "yellow") :: evs ∧
    forallb is_message evs = true ∧
    disk (seednodes network_domains teacher_uris σ).2 = disk σ.
Proof.
  rewrite load_seednodes_unfold.
  pose proof (aggregate_seednode_uris_frame network_domains teacher_uris (announced σ))
    as Hframe.
  destruct (aggregate_seednode_uris network_domains teacher_uris (announced σ))
    as [[l|e] σ1]; simpl in Hframe; destruct Hframe as (Hd & Ht & _).
  - destruct (nonempty (contents σ1 l)).
    + destruct (construct_ursulas_keeps (contents σ1 l) [] σ1)
        as (_ & Hd2 & evs & Ht2 & Hevs).
      assert (Hmsg : forallb is_message evs = true).
      { clear -Hevs. induction evs as [|ev evs IH]; simpl in *; [done|].
        apply andb_true_iff in Hevs as [Hev Hevs]. rewrite (IH Hevs).
        by destruct ev. }
      destruct (constructed (contents σ1 l) [] σ1) as [[[|t ts]|e] σ2]; simpl in *.
      * exists (evs ++ [Message (NO_DOMAIN_PEERS network_domains) None]).
        rewrite Ht2, Ht, <- !app_assoc. split; [done|].
        rewrite forallb_app, Hmsg. split; [done|congruence].
      * exists evs. split; [by rewrite Ht2, Ht, <- app_assoc|]. split; [done|congruence].
      * exists evs. split; [by rewrite Ht2, Ht, <- app_assoc|]. split; [done|congruence].
    + exists [Message (NO_DOMAIN_PEERS network_domains) None]. simpl.
      by rewrite Ht, <- app_assoc.
  - exists []. simpl. by rewrite Ht.
Qed.

(** X12. [load_seednodes] passes its [teacher_uris] list on to
    [aggregate_seednode_uris], so a non-empty list given by the caller is
    extended in place: after the call, whatever became of the construction
    attempts, it holds its former elements followed by the contributions of
    the domains. *)
Theorem load_seednodes_extends_teacher_uris (network_domains : list string) l σ uris σ1 :
  contents σ l ≠ [] →
  aggregate_seednode_uris network_domains (Some l) (announced σ) = (Ok uris, σ1) →
  ∃ static_nodes,
    read_static_nodes (disk σ) network_domains None = Ok static_nodes ∧
    contents (seednodes network_domains (Some l) σ).2 l =
      contents σ l ++ (contributions static_nodes network_domains).1.
Proof.
  intros Hne Hagg.
  destruct (aggregate_seednode_uris_alias network_domains l (announced σ) uris σ1 Hne Hagg)
    as (-> & static_nodes & Hread & Hl).
  exists static_nodes. split; [done|]. rewrite load_seednodes_unfold, Hagg.
  change (contents (announced σ) l) with (contents σ l) in Hl. rewrite <- Hl.
  destruct (nonempty (contents σ1 l)); [|done].
  destruct (construct_ursulas_keeps (contents σ1 l) [] σ1) as (Hh & _).
  unfold contents at 1 3.
  destruct (constructed (contents σ1 l) [] σ1) as [[[|t ts]|e] σ2]; simpl in *;
    by rewrite Hh.
Qed.

(** X13. A call of [load_seednodes] that returns has emitted the "no
    peers" notice if and only if it returns no teacher. *)
Theorem load_seednodes_no_peers_notice (network_domains : list string)
    (teacher_uris : option loc) σ (teacher_nodes : list Ursula) :
  (seednodes network_domains teacher_uris σ).1 = Ok teacher_nodes →
  (Message (NO_DOMAIN_PEERS network_domains) None
     ∈ new_events σ (seednodes network_domains teacher_uris σ).2 ↔
   teacher_nodes = []).
Proof.
  rewrite load_seednodes_unfold. unfold new_events.
  pose proof (aggregate_seednode_uris_frame network_domains teacher_uris (announced σ))
    as Hframe.
  destruct (aggregate_seednode_uris network_domains teacher_uris (announced σ))
    as [[l|e] σ1]; simpl in Hframe; destruct Hframe as (_ & Ht & _); [|done].
  destruct (nonempty (contents σ1 l)).
  - destruct (construct_ursulas_keeps (contents σ1 l) [] σ1) as (_ & _ & evs & Ht2 & Hevs).
    assert (Hnot : Message (NO_DOMAIN_PEERS network_domains) None ∉ evs).
    { clear -Hevs. induction evs as [|ev evs IH]; simpl in *; [by intros ?%elem_of_nil|].
      apply andb_true_iff in Hevs as [Hev Hevs]. apply not_elem_of_cons. split; [|by apply IH].
      intros <-. done. }
    destruct (constructed (contents σ1 l) [] σ1) as [[[|t ts]|e] σ2]; simpl in *; [| |done].
    + intros [= <-]. rewrite Ht2, Ht, <- !app_assoc, drop_app_length. split; [done|].
      intros _. simpl. right. apply elem_of_app. right. by left.
    + intros [= <-]. rewrite Ht2, Ht, <- !app_assoc, drop_app_length. split; [|done].
      simpl. intros [[=]|Hin]%elem_of_cons. done.
  - simpl. intros [= <-]. rewrite Ht, <- app_assoc, drop_app_length. split; [done|].
    intros _. right. by left.
Qed.

End MoreBootstrap.

(** ** [get_external_ip_from_centralized_source] and [determine_external_ip_address] *)

(** The state after the events [evs], with the world [w]. *)
Local Abbreviation after σ evs w := (State (heap σ) (disk σ) (trace σ ++ evs) w).

Lemma determine_external_ip_address_unfold (force : bool) σ :
  determine_external_ip_address force σ =
    let '(o, w) := requests_get echo_url (world σ) in
    match o with
    | Raise (UnknownIPAddress status) =>
        if force then (Raise (UnknownIPAddress status), after σ [Get echo_url] w)
        else (Ok None, after σ [Get echo_url] w)
    | Raise e => (Raise e, after σ [Get echo_url] w)
    | Ok ip_request =>
        if status_code ip_request =? 200 then
          let rest_host := text ip_request in
          if force then
            (Ok (Some rest_host),
             after σ [Get echo_url;
                      Message (FORCE_DETECT_URSULA_IP_WARNING rest_host) (Some "yellow")] w)
          else
            let '(c, w') := click_confirm (CONFIRM_URSULA_IPV4_ADDRESS rest_host) w in
            let asked := [Get echo_url; Confirm (CONFIRM_URSULA_IPV4_ADDRESS rest_host)] in
            match c with
            | Raise e => (Raise e, after σ asked w')
            | Ok true => (Ok (Some rest_host), after σ asked w')
            | Ok false =>
                let '(p, w'') := click_prompt COLLECT_URSULA_IPV4_ADDRESS IPV4_ADDRESS w' in
                let prompted := asked ++ [Prompt COLLECT_URSULA_IPV4_ADDRESS] in
                match p with
                | Raise e => (Raise e, after σ prompted w'')
                | Ok typed => (Ok (Some typed), after σ prompted w'')
                end
            end
        else if force then
          (Raise (UnknownIPAddress (status_code ip_request)), after σ [Get echo_url] w)
        else (Ok None, after σ [Get echo_url] w)
    end.
Proof.
  unfold determine_external_ip_address. rewrite get_external_ip_unfold.
  destruct (requests_get echo_url (world σ)) as [[ip_request|e] w].
  - destruct (status_code ip_request =? 200); [|done].
    destruct force; simpl; run; unfold emit, call, with_trace, with_world; simpl.
    + by rewrite <- app_assoc.
    + destruct (click_confirm _ w) as [[[|]|e] w']; simpl; rewrite <- ?app_assoc; try done.
      destruct (click_prompt _ _ w') as [[typed|e] w'']; simpl; by rewrite <- ?app_assoc.
  - by destruct e.
Qed.

(** X14. One call of [determine_external_ip_address] makes exactly one
    GET, first; after it there is nothing, or (forced) the one warning
    notice, or (not forced) one confirmation, possibly followed by one
    prompt.  No notice is emitted when not forced and the user is never
    asked when forced.  The list objects and the disk are not touched. *)
Theorem determine_external_ip_address_protocol (force : bool) σ :
  let r := determine_external_ip_address force σ in
  heap r.2 = heap σ ∧ disk r.2 = disk σ ∧
  (new_events σ r.2 = [Get echo_url] ∨
   (force = true ∧
    ∃ rest_host,
      new_events σ r.2 =
        [Get echo_url; Message (FORCE_DETECT_URSULA_IP_WARNING rest_host) (Some "yellow")]) ∨
   (force = false ∧
    ∃ rest_host,
      new_events σ r.2 = [Get echo_url; Confirm (CONFIRM_URSULA_IPV4_ADDRESS rest_host)] ∨
      new_events σ r.2 = [Get echo_url; Confirm (CONFIRM_URSULA_IPV4_ADDRESS rest_host);
                          Prompt COLLECT_URSULA_IPV4_ADDRESS])).
Proof.
  intros r. subst r. rewrite determine_external_ip_address_unfold. unfold new_events.
  destruct (requests_get echo_url (world σ)) as [[ip_request|e] w].
  - destruct (status_code ip_request =? 200).
    + destruct force; simpl.
      * rewrite drop_app_length. split; [done|]. split; [done|]. right. left. eauto.
      * destruct (click_confirm _ w) as [[[|]|e] w']; simpl.
        -- rewrite drop_app_length. split; [done|]. split; [done|]. right. right. eauto.
        -- destruct (click_prompt _ _ w') as [[typed|e] w'']; simpl;
             rewrite drop_app_length; (split; [done|]); (split; [done|]); right; right; eauto.
        -- rewrite drop_app_length. split; [done|]. split; [done|]. right. right. eauto.
    + destruct force; simpl; rewrite drop_app_length; auto.
  - destruct e, force; simpl; rewrite drop_app_length; auto.
Qed.

(** X15. With [force] true the call never returns [None], and it leaves
    the world as the GET left it: neither [click.confirm] nor
    [click.prompt] is invoked, whatever the address-echo service does. *)
Theorem determine_external_ip_address_forced_asks_nobody σ :
  (determine_external_ip_address true σ).1 ≠ Ok None ∧
  world (determine_external_ip_address true σ).2 = (requests_get echo_url (world σ)).2 ∧
  forallb (λ ev, negb (is_interaction ev))
    (new_events σ (determine_external_ip_address true σ).2) = true.
Proof.
  rewrite determine_external_ip_address_unfold. unfold new_events.
  destruct (requests_get echo_url (world σ)) as [[ip_request|e] w]; simpl.
  - destruct (status_code ip_request =? 200); simpl; by rewrite drop_app_length.
  - destruct e; simpl; by rewrite drop_app_length.
Qed.

(** X16. [determine_external_ip_address] returns [None] in one case
    only: [force] is false and [get_external_ip_from_centralized_source]
    raised UnknownIPAddress. *)
Theorem determine_external_ip_address_None (force : bool) σ :
  (determine_external_ip_address force σ).1 = Ok None ↔
  force = false ∧
  ∃ status, (get_external_ip_from_centralized_source σ).1 = Raise (UnknownIPAddress status).
Proof.
  rewrite determine_external_ip_address_unfold, get_external_ip_unfold.
  destruct (requests_get echo_url (world σ)) as [[ip_request|e] w]; simpl.
  - destruct (status_code ip_request =? 200); simpl.
    + destruct force; simpl; [by split; [|intros [[=] _]]|].
      destruct (click_confirm _ w) as [[[|]|e] w']; simpl;
        try (by split; [|intros [_ [? [=]]]]).
      destruct (click_prompt _ _ w') as [[typed|e] w'']; simpl;
        by split; [|intros [_ [? [=]]]].
    + destruct force; simpl; [by split; [|intros [[=] _]]|]. split; eauto.
  - destruct e, force; simpl; try (by split; [|intros [[=] _]]);
      try (by split; [|intros [_ [? [=]]]]).
    split; eauto.
Qed.

(** X17. The confirmation and the prompt are outside the [try]: when
    [click.confirm] raises, or when the user declines and [click.prompt]
    raises, that exception reaches the caller (whatever its class), after
    the interactions made so far. *)
Theorem determine_external_ip_address_click_failures σ (body : string) (w : World) :
  requests_get echo_url (world σ) = (Ok (Response 200 body), w) →
  (∀ e w',
     click_confirm (CONFIRM_URSULA_IPV4_ADDRESS body) w = (Raise e, w') →
     determine_external_ip_address false σ =
       (Raise e,
        after σ [Get echo_url; Confirm (CONFIRM_URSULA_IPV4_ADDRESS body)] w')) ∧
  (∀ e w' w'',
     click_confirm (CONFIRM_URSULA_IPV4_ADDRESS body) w = (Ok false, w') →
     click_prompt COLLECT_URSULA_IPV4_ADDRESS IPV4_ADDRESS w' = (Raise e, w'') →
     determine_external_ip_address false σ =
       (Raise e,
        after σ [Get echo_url; Confirm (CONFIRM_URSULA_IPV4_ADDRESS body);
                 Prompt COLLECT_URSULA_IPV4_ADDRESS] w'')).
Proof.
  intros Hget. rewrite determine_external_ip_address_unfold, Hget. simpl. split.
  - intros e w' Hconfirm. by rewrite Hconfirm.
  - intros e w' w'' Hconfirm Hprompt. by rewrite Hconfirm, Hprompt.
Qed.

(** X18. [get_external_ip_from_centralized_source] returns a text
    exactly when the GET came back with status 200 and that text as its
    body; any other status, 2xx included, and any exception of the HTTP
    client make it raise. *)
Theorem get_external_ip_from_centralized_source_200 σ (body : string) :
  (get_external_ip_from_centralized_source σ).1 = Ok body ↔
  ∃ w, requests_get echo_url (world σ) = (Ok (Response 200 body), w).
Proof.
  rewrite get_external_ip_unfold.
  destruct (requests_get echo_url (world σ)) as [[[status body']|e] w]; simpl.
  - destruct (status =? 200) eqn:Hstatus; simpl.
    + apply Z.eqb_eq in Hstatus as ->. split.
      * intros [= ->]. eauto.
      * by intros [w' [= ->]].
    + apply Z.eqb_neq in Hstatus. split; [done|]. intros [w' [= -> _]]. done.
  - split; [done|]. by intros [w' [=]].
Qed.

End Coverage.

(** * The further properties on the scenarios *)

(** X1, on the file of the bare-string scenario: of its two entries only
    the one of the requested domain is returned. *)
Lemma load_static_nodes_restricts_witness :
  ∃ static_nodes,
    load_static_nodes (env := alpha_env) ["alpha"; "beta"] None bare_string_state =
      (Ok static_nodes, bare_string_state) ∧
    static_nodes =
      filter (λ kv, kv.1 ∈ ["alpha"; "beta"])
        [("alpha", PStr "n:A"); ("gamma", PList [PStr "node://G"])] ∧
    ∀ domain,
      dict_get static_nodes domain =
        if decide (domain ∈ ["alpha"; "beta"])
        then dict_get [("alpha", PStr "n:A"); ("gamma", PList [PStr "node://G"])] domain
        else PNone.
Proof.
  apply (load_static_nodes_restricts (env := alpha_env) ["alpha"; "beta"] None
           bare_string_state).
  - reflexivity.
  - simpl. apply NoDup_cons. split; [|apply NoDup_singleton].
    intros Hin%list_elem_of_singleton. discriminate.
Defined.

(** X2, on a file that is not JSON. *)
Lemma static_nodes_failure_propagates_witness :
  aggregate_seednode_uris (env := alpha_env) ["alpha"] (Some 1%positive) garbage_state =
    (Raise (RuntimeError
              "Static nodes file '/etc/nucypher/static-nodes.json' contains invalid JSON."),
     garbage_state) ∧
  load_seednodes (env := alpha_env) 0 false ["alpha"] None (Some 1%positive) None
    garbage_state =
    (Raise (RuntimeError
              "Static nodes file '/etc/nucypher/static-nodes.json' contains invalid JSON."),
     with_trace (trace garbage_state ++ [Message CONNECTING_TO_TEACHERS (Some "yellow")])
       garbage_state).
Proof.
  apply (static_nodes_failure_propagates (env := alpha_env) 0 false ["alpha"] None
           (Some 1%positive) None garbage_state).
  reflexivity.
Defined.

(** X3, on two domains that neither the file nor the table knows. *)
Lemma aggregate_seednode_uris_skips_empty_entries_witness :
  result_contents (aggregate_seednode_uris (env := alpha_env) ["beta"; "gamma"]
                     (Some 1%positive) (alpha_state quiet)) =
    Ok [PStr "node://C"].
Proof.
  apply (aggregate_seednode_uris_skips_empty_entries (env := alpha_env) ["beta"; "gamma"]
           (Some 1%positive) (alpha_state quiet) []).
  - reflexivity.
  - repeat constructor.
Defined.

(** X4, on the two orders of two domains. *)
Lemma aggregate_seednode_uris_permuted_witness :
  ∃ rest1 rest2,
    [PStr "node://C"; PStr "node://A"; PStr "node://B"] = [PStr "node://C"] ++ rest1 ∧
    [PStr "node://C"; PStr "node://B"; PStr "node://A"] = [PStr "node://C"] ++ rest2 ∧
    rest1 ≡ₚ rest2.
Proof.
  apply (aggregate_seednode_uris_permuted (env := alpha_beta_env)
           ["alpha"; "beta"] ["beta"; "alpha"] (Some 1%positive) (Some 2%positive)
           alpha_beta_state alpha_beta_state).
  - apply Permutation_swap.
  - reflexivity.
  - reflexivity.
Defined.

(** X5, on the scenario: the second call returns the contributions twice. *)
Lemma aggregate_seednode_uris_accumulates_witness :
  ∃ bl,
    [PStr "node://C"; PStr "node://A"; PStr "node://B"] = [PStr "node://C"] ++ bl ∧
    result_contents
      (aggregate_seednode_uris (env := alpha_env) ["alpha"] (Some 1%positive)
         (aggregate_seednode_uris (env := alpha_env) ["alpha"] (Some 1%positive)
            (alpha_state quiet)).2) =
      Ok ([PStr "node://C"] ++ bl ++ bl).
Proof.
  apply (aggregate_seednode_uris_accumulates (env := alpha_env) ["alpha"] 1%positive
           (alpha_state quiet) 1%positive
           (aggregate_seednode_uris (env := alpha_env) ["alpha"] (Some 1%positive)
              (alpha_state quiet)).2).
  - discriminate.
  - by vm_compute.
Defined.

(** X6, on the file with a number for the second domain: the static node
    and the hardcoded teacher of the first domain are in the caller's list
    when the TypeError is raised. *)
Lemma aggregate_seednode_uris_fails_halfway_witness :
  (aggregate_seednode_uris (env := alpha_beta_env) ["alpha"; "beta"] (Some 1%positive)
     broken_beta_state).1 = Raise (TypeError "int") ∧
  contents (aggregate_seednode_uris (env := alpha_beta_env) ["alpha"; "beta"]
              (Some 1%positive) broken_beta_state).2 1%positive =
    [PStr "node://C"] ++ [PStr "node://S"; PStr "node://A"].
Proof.
  apply (aggregate_seednode_uris_fails_halfway (env := alpha_beta_env) ["alpha"; "beta"]
           1%positive broken_beta_state
           [("alpha", PList [PStr "node://S"]); ("beta", PInt 7)]).
  - discriminate.
  - reflexivity.
  - reflexivity.
Defined.

(** X7, on the scenario with two lists: the call on the first leaves the
    second alone. *)
Lemma aggregate_seednode_uris_touches_one_list_witness :
  heap (aggregate_seednode_uris (env := alpha_beta_env) ["alpha"; "beta"] (Some 1%positive)
          alpha_beta_state).2 !! 2%positive = Some [PStr "node://C"].
Proof.
  destruct (aggregate_seednode_uris_touches_one_list (env := alpha_beta_env)
              ["alpha"; "beta"] (Some 1%positive) alpha_beta_state 2%positive)
    as (Hkept & _).
  - by eexists.
  - discriminate.
  - exact Hkept.
Defined.


(** X9, on the scenario without a list from the caller. *)
Lemma aggregate_seednode_uris_new_list_witness :
  heap bare_state !! 1%positive = None ∧
  is_Some (heap (aggregate_seednode_uris (env := alpha_env) ["alpha"] None bare_state).2
             !! 1%positive).
Proof.
  apply (aggregate_seednode_uris_new_list (env := alpha_env) ["alpha"] None bare_state
           1%positive
           (aggregate_seednode_uris (env := alpha_env) ["alpha"] None bare_state).2).
  - reflexivity.
  - by vm_compute.
Defined.

(** X10, on the scenario with a node that is down: two teachers and one
    notice for three URIs. *)
Lemma load_seednodes_accounts_for_every_uri_witness :
  ∃ teacher_nodes,
    (load_seednodes (env := alpha_env) 0 false ["alpha"] None (Some 1%positive) None
       (alpha_state a_is_down)).1 = Ok teacher_nodes ∧
    (length teacher_nodes +
     length (List.filter failure_notice
               (new_events (alpha_state a_is_down)
                  (load_seednodes (env := alpha_env) 0 false ["alpha"] None
                     (Some 1%positive) None (alpha_state a_is_down)).2)) = 3)%nat.
Proof.
  apply (load_seednodes_accounts_for_every_uri (env := alpha_env) 0 false None None
           ["alpha"] (Some 1%positive) (alpha_state a_is_down) 1%positive
           (aggregate_seednode_uris (env := alpha_env) ["alpha"] (Some 1%positive)
              (with_trace [Message CONNECTING_TO_TEACHERS (Some "yellow")]
                 (alpha_state a_is_down))).2).
  - by vm_compute.
  - by vm_compute.
Defined.

(** X12, on the scenario: the caller's list holds the aggregated URIs
    after [load_seednodes]. *)
Lemma load_seednodes_extends_teacher_uris_witness :
  ∃ static_nodes,
    read_static_nodes (env := alpha_env) alpha_disk ["alpha"] None = Ok static_nodes ∧
    contents (load_seednodes (env := alpha_env) 0 false ["alpha"] None (Some 1%positive)
                None (alpha_state a_is_down)).2 1%positive =
      [PStr "node://C"] ++ (contributions (env := alpha_env) static_nodes ["alpha"]).1.
Proof.
  apply (load_seednodes_extends_teacher_uris (env := alpha_env) 0 false None None
           ["alpha"] 1%positive (alpha_state a_is_down) 1%positive
           (aggregate_seednode_uris (env := alpha_env) ["alpha"] (Some 1%positive)
              (with_trace [Message CONNECTING_TO_TEACHERS (Some "yellow")]
                 (alpha_state a_is_down))).2).
  - discriminate.
  - by vm_compute.
Defined.

(** X13, on the scenario: teachers are returned and no "no peers" notice
    was emitted. *)
Lemma load_seednodes_no_peers_notice_witness :
  Message (NO_DOMAIN_PEERS ["alpha"]) None
    ∈ new_events (alpha_state a_is_down)
        (load_seednodes (env := alpha_env) 0 false ["alpha"] None (Some 1%positive) None
           (alpha_state a_is_down)).2 ↔
  ["node://C"; "node://B"] = [].
Proof.
  apply (load_seednodes_no_peers_notice (env := alpha_env) 0 false None None
           ["alpha"] (Some 1%positive) (alpha_state a_is_down) ["node://C"; "node://B"]).
  by vm_compute.
Defined.

(** X17, on the scenario where the confirmation aborts. *)
Lemma determine_external_ip_address_click_failures_witness :
  determine_external_ip_address (env := alpha_env) false (alpha_state no_terminal) =
    (Raise (OtherError "Abort"),
     State (env := alpha_env) {[ 1%positive := [PStr "node://C"] ]} alpha_disk
       [Get echo_url; Confirm (CONFIRM_URSULA_IPV4_ADDRESS "203.0.113.7")] no_terminal).
Proof.
  destruct (determine_external_ip_address_click_failures (env := alpha_env)
              (alpha_state no_terminal) "203.0.113.7" no_terminal) as [Hconfirm _].
  - reflexivity.
  - apply (Hconfirm (OtherError "Abort") no_terminal). reflexivity.
Defined.
